(** * A conversational agent runtime: memory, extraction, dispatch, negotiation

    Shallow embedding of the Python sources under [src/agent_system]
    ([memory.py], [llm_provider.py], [agent.py]) and the properties of the
    tool-call negotiation protocol proved about them.

    Part I holds the definitions, Part II the theorems. *)

From Stdlib Require Import ZArith List String Ascii Bool Lia.
From Stdlib Require Import Numbers.DecimalString.
Import ListNotations.

Set Warnings "-register-all".

Local Open Scope list_scope.
Local Open Scope string_scope.
Local Open Scope Z_scope.

(** * Part I: definitions *)

(** ** Python data *)

(** [l[start:]] as Python computes it: a negative [start] counts from the
    end and is clipped at 0, a non-negative one is clipped at [len(l)]. *)
Definition slice_from {A : Type} (start : Z) (l : list A) : list A :=
  let len := Z.of_nat (List.length l) in
  let s := if start <? 0 then Z.max 0 (start + len) else Z.min start len in
  skipn (Z.to_nat s) l.

(** The last [n] elements of a list (all of it when it is shorter). *)
Definition lastn {A : Type} (n : nat) (l : list A) : list A :=
  skipn (List.length l - n) l.

(** The values that cross the agent's interfaces: what [json.load] builds
    from a configuration file or a model reply, and what a tool returns.
    Numbers are integers; a dict keeps its keys in insertion order. *)
Inductive value : Type :=
| VNone
| VBool (b : bool)
| VInt (n : Z)
| VStr (s : string)
| VList (l : list value)
| VDict (d : list (string * value)).

(** The exception classes the handlers of the sources tell apart, all of
    them subclasses of [Exception] (what [except Exception] catches). *)
Inductive exn_class : Type :=
| ImportError
| ModuleNotFoundError
| AttributeError
| TypeError
| ValueError
| KeyError
| JSONDecodeError
| FileNotFoundError
| NotImplementedError
| OtherException (name : string).

(** A raised exception: its class and [str(e)]. *)
Record exn : Type := mkExn { exn_kind : exn_class; exn_msg : string }.

(** [isinstance(e, (ImportError, AttributeError))] *)
Definition is_import_or_attribute_error (e : exn) : bool :=
  match exn_kind e with
  | ImportError | ModuleNotFoundError | AttributeError => true
  | _ => false
  end.

(** Truth value of a value, as [if v:] and [not v] test it. *)
Definition truthy (v : value) : bool :=
  match v with
  | VNone => false
  | VBool b => b
  | VInt n => negb (n =? 0)
  | VStr s => negb (String.eqb s EmptyString)
  | VList l => match l with [] => false | _ => true end
  | VDict d => match d with [] => false | _ => true end
  end.

Definition type_name (v : value) : string :=
  match v with
  | VNone => "NoneType"
  | VBool _ => "bool"
  | VInt _ => "int"
  | VStr _ => "str"
  | VList _ => "list"
  | VDict _ => "dict"
  end.

Definition no_attribute (v : value) (attr : string) : exn :=
  mkExn AttributeError ("'" ++ type_name v ++ "' object has no attribute '" ++ attr ++ "'").

(** Lookup in a dict kept as an association list. *)
Fixpoint assoc {A : Type} (k : string) (d : list (string * A)) : option A :=
  match d with
  | [] => None
  | (k', v) :: d' => if String.eqb k k' then Some v else assoc k d'
  end.

(** [v.get(key, default)]: only a dict has the method. *)
Definition py_get (v : value) (key : string) (default : value) : exn + value :=
  match v with
  | VDict d => inr (match assoc key d with Some x => x | None => default end)
  | _ => inl (no_attribute v "get")
  end.

Definition is_str (s : string) (v : value) : bool :=
  match v with VStr s' => String.eqb s s' | _ => false end.

(** [s] without the prefix [p], when it has it. *)
Fixpoint strip_prefix (p s : string) : option string :=
  match p, s with
  | EmptyString, _ => Some s
  | String a p', String b s' => if Ascii.eqb a b then strip_prefix p' s' else None
  | String _ _, EmptyString => None
  end.

(** [s.startswith(p)] *)
Definition starts_with (p s : string) : bool :=
  match strip_prefix p s with
  | Some _ => true
  | None => false
  end.

(** [sub in s] on strings. *)
Fixpoint contains (sub s : string) : bool :=
  starts_with sub s ||
  match s with
  | EmptyString => false
  | String _ s' => contains sub s'
  end.

(** [key in v]: key membership for a dict, element membership for a list,
    substring test for a string, [TypeError] for anything else. *)
Definition py_in (key : string) (v : value) : exn + bool :=
  match v with
  | VDict d => inr (match assoc key d with Some _ => true | None => false end)
  | VList l => inr (existsb (is_str key) l)
  | VStr s => inr (contains key s)
  | _ => inl (mkExn TypeError ("argument of type '" ++ type_name v ++ "' is not iterable"))
  end.

Definition Z_to_string (n : Z) : string := NilZero.string_of_int (Z.to_int n).

(** [str(v)], as an f-string formats [v].  [repr] is the interpreter's
    rendering of lists and dicts. *)
Definition py_str (repr : value -> string) (v : value) : string :=
  match v with
  | VNone => "None"
  | VBool true => "True"
  | VBool false => "False"
  | VInt n => Z_to_string n
  | VStr s => s
  | VList _ | VDict _ => repr v
  end.

(** ** Text: whitespace, [strip], and the two patterns of [extract_tool_call]

    Text is a string over the code points below 256. *)

(** [str.isspace] and the pattern class [\s] on those code points. *)
Definition isspace (c : ascii) : bool :=
  let n := nat_of_ascii c in
  (((9 <=? n) && (n <=? 13)) || ((28 <=? n) && (n <=? 32)) || (n =? 133) || (n =? 160))%nat.

Fixpoint lstrip (s : string) : string :=
  match s with
  | EmptyString => EmptyString
  | String c s' => if isspace c then lstrip s' else s
  end.

Fixpoint rstrip (s : string) : string :=
  match s with
  | EmptyString => EmptyString
  | String c s' =>
      match rstrip s' with
      | EmptyString => if isspace c then EmptyString else String c EmptyString
      | r => String c r
      end
  end.

(** [s.strip()] *)
Definition strip (s : string) : string := rstrip (lstrip s).

Definition fence : string := "```".

Definition lbrace : ascii := "{"%char.
Definition rbrace : ascii := "}"%char.

(** The tail of the fenced pattern, [[\s\S]*?}\s*```], read after the
    opening brace: the lazy star stops at the first closing brace that is
    followed by optional whitespace and a fence.  (The greedy [\s*] can only
    stand for the whole whitespace run, a backquote not being whitespace.)
    The result is the text matched up to and with that brace. *)
Fixpoint lazy_body (s : string) : option string :=
  match s with
  | EmptyString => None
  | String c s' =>
      if Ascii.eqb c rbrace && starts_with fence (lstrip s')
      then Some (String rbrace EmptyString)
      else option_map (String c) (lazy_body s')
  end.

(** The pattern [```(?:json)?\s*({[\s\S]*?})\s*```] matched at the start of
    [s]; the result is group 1.  The optional label is taken when it is
    there: without it the next character would have to be whitespace or the
    brace. *)
Definition match_fenced_at (s : string) : option string :=
  match strip_prefix fence s with
  | None => None
  | Some s1 =>
      let s2 := match strip_prefix "json" s1 with Some r => r | None => s1 end in
      match lstrip s2 with
      | String c body =>
          if Ascii.eqb c lbrace then option_map (String lbrace) (lazy_body body) else None
      | EmptyString => None
      end
  end.

(** [re.search] of that pattern: the leftmost position where it matches. *)
Fixpoint search_fenced (s : string) : option string :=
  match match_fenced_at s with
  | Some g => Some g
  | None =>
      match s with
      | EmptyString => None
      | String _ s' => search_fenced s'
      end
  end.

Fixpoint ends_with_char (c : ascii) (s : string) : bool :=
  match s with
  | EmptyString => false
  | String a EmptyString => Ascii.eqb a c
  | String _ s' => ends_with_char c s'
  end.

Fixpoint drop_last (s : string) : string :=
  match s with
  | EmptyString => EmptyString
  | String _ EmptyString => EmptyString
  | String a s' => String a (drop_last s')
  end.

Definition newline : ascii := "010"%char.

(** [re.search] of [^({[\s\S]*})$]: the text opens with a brace and the
    greedy star runs to the last closing brace that stands at the end of
    the text, or just before a final newline (what [$] accepts). *)
Definition match_bare (s : string) : option string :=
  match s with
  | String c rest =>
      if Ascii.eqb c lbrace then
        if ends_with_char rbrace rest then Some s
        else if ends_with_char newline rest && ends_with_char rbrace (drop_last rest)
             then Some (drop_last s)
             else None
      else None
  | EmptyString => None
  end.

(** Conditions on text that the theorems of Part II use. *)

Definition backquote : ascii := "`"%char.

Fixpoint has_char (c : ascii) (s : string) : bool :=
  match s with
  | EmptyString => false
  | String a s' => Ascii.eqb a c || has_char c s'
  end.

Fixpoint all_space (s : string) : bool :=
  match s with
  | EmptyString => true
  | String a s' => isspace a && all_space s'
  end.

(** Somewhere in [s] a closing brace is followed by optional whitespace
    and a fence. *)
Fixpoint fence_clash (s : string) : bool :=
  match s with
  | EmptyString => false
  | String c s' =>
      (Ascii.eqb c rbrace && starts_with fence (lstrip s')) || fence_clash s'
  end.

(** A fenced block around [text]: the fence, the optional label,
    whitespace, the text, whitespace, the fence. *)
Definition fenced (label : bool) (ws1 text ws2 : string) : string :=
  fence ++ (if label then "json" else EmptyString) ++ ws1 ++ text ++ ws2 ++ fence.

(** ** State and exceptions *)

(** A computation over a state [S] that returns or raises; the state
    survives a raise, as mutations made before a Python exception do. *)
Definition ST (S A : Type) : Type := S -> (exn + A) * S.

Definition ret {S A : Type} (a : A) : ST S A := fun s => (inr a, s).

Definition raise {S A : Type} (e : exn) : ST S A := fun s => (inl e, s).

Definition bind {S A B : Type} (m : ST S A) (k : A -> ST S B) : ST S B :=
  fun s =>
    match m s with
    | (inr a, s') => k a s'
    | (inl e, s') => (inl e, s')
    end.

(** [try: m  except Exception as e: h e] *)
Definition try_except {S A : Type} (m : ST S A) (h : exn -> ST S A) : ST S A :=
  fun s =>
    match m s with
    | (inr a, s') => (inr a, s')
    | (inl e, s') => h e s'
    end.

(** A pure step that may raise. *)
Definition lift {S A : Type} (r : exn + A) : ST S A := fun s => (r, s).

Declare Scope st_scope.
Delimit Scope st_scope with st.
Notation "x <- m ;; k" := (bind m (fun x => k))
  (at level 100, m at next level, right associativity) : st_scope.
Notation "m ;;; k" := (bind m (fun _ => k))
  (at level 100, right associativity) : st_scope.

(** The same bind for pure steps. *)
Definition ebind {A B : Type} (r : exn + A) (k : A -> exn + B) : exn + B :=
  match r with
  | inr a => k a
  | inl e => inl e
  end.

(** ** memory.py *)

Module Memory.

(** The dicts with a role and a content that the agent passes around. *)
Record Message : Type := mkMessage { role : string; content : string }.

(** [class Memory]: [self.messages], [self.max_items], [self.enabled].
    The flag is only ever tested for truth, so it is kept as a [bool]. *)
Record t : Type := mk { messages : list Message; max_items : Z; enabled : bool }.

(** [Memory.__init__(max_items, enabled)] *)
Definition init (max_items : Z) (enabled : bool) : t := mk [] max_items enabled.

(** [Memory.add(role, content)] *)
Definition add (role content : string) (m : t) : t :=
  if negb (enabled m) then m
  else
    let ms := (messages m ++ [mkMessage role content])%list in
    if Z.of_nat (List.length ms) >? max_items m
    then mk (slice_from (- max_items m) ms) (max_items m) (enabled m)
    else mk ms (max_items m) (enabled m).

(** [Memory.get_messages()] *)
Definition get_messages (m : t) : list Message := messages m.

(** [Memory.clear()] *)
Definition clear (m : t) : t := mk [] (max_items m) (enabled m).

(** [Memory.is_enabled()] *)
Definition is_enabled (m : t) : bool := enabled m.

(** [Memory.set_enabled(enabled)] *)
Definition set_enabled (b : bool) (m : t) : t := mk (messages m) (max_items m) b.

(** A run of [add] calls, oldest first. *)
Definition add_all (l : list Message) (m : t) : t :=
  fold_left (fun acc x => add (role x) (content x) acc) l m.

(** The calls a client can make on a memory, and a run of them. *)
Inductive op : Type :=
| Add (role content : string)
| Clear
| SetEnabled (b : bool).

Definition step (o : op) (m : t) : t :=
  match o with
  | Add r c => add r c m
  | Clear => clear m
  | SetEnabled b => set_enabled b m
  end.

Definition run (ops : list op) (m : t) : t := fold_left (fun acc o => step o acc) ops m.

Definition enables (o : op) : bool :=
  match o with SetEnabled true => true | _ => false end.

End Memory.


(** ** The interpreter and the outside world

    What the sources use and do not define: the [json] module, [str.format],
    [repr], the environment, the import system with the tool modules behind
    it, the tool descriptor files and the two vendors' clients.  Everything
    that can touch the outside runs over a state [World]. *)

(** A tool function called with keyword arguments, and a module as the
    lookup of its attributes. *)
Definition callable (W : Type) : Type := value -> ST W value.
Definition pymodule (W : Type) : Type := string -> option (callable W).

Record Runtime : Type := mkRuntime {
  World : Type;
  (** [json.loads] and [json.dumps] *)
  json_loads : string -> exn + value;
  json_dumps : value -> exn + string;
  (** [repr] of a list or a dict *)
  repr : value -> string;
  (** [template.format(agent_name=.., backstory=.., task=..)] *)
  str_format : string -> value -> value -> value -> exn + string;
  (** [os.environ.get] when a provider is built *)
  environ : string -> option string;
  (** [importlib.util.find_spec(name) is not None] *)
  find_spec : string -> bool;
  (** [importlib.import_module] *)
  import_module : string -> ST World (pymodule World);
  (** the text of a file, [None] when [os.path.exists] says it is absent *)
  read_file : string -> ST World (option string);
  (** [client.chat.completions.create(model, messages, temperature, tools,
      tool_choice).choices[0].message.content] *)
  openai_create : string -> list Memory.Message -> option value -> ST World string;
  (** [client.messages.create(model, system, messages, max_tokens,
      temperature).content[0].text] *)
  anthropic_create : string -> string -> list Memory.Message -> ST World string
}.

(** ** Dicts keyed by values *)

(** A dict whose keys are values, as [self.tools] is built: [hashable]
    keys only, compared as Python compares them ([True == 1]). *)
Definition hashable (v : value) : bool :=
  match v with
  | VList _ | VDict _ => false
  | _ => true
  end.

Definition key_eq (a b : value) : bool :=
  match a, b with
  | VNone, VNone => true
  | VStr x, VStr y => String.eqb x y
  | VBool x, VBool y => Bool.eqb x y
  | VInt x, VInt y => x =? y
  | VBool x, VInt y => (if x then 1 else 0) =? y
  | VInt x, VBool y => x =? (if y then 1 else 0)
  | _, _ => false
  end.

Definition registry : Type := list (value * value).

Definition unhashable (v : value) : exn :=
  mkExn TypeError ("unhashable type: '" ++ type_name v ++ "'").

Fixpoint registry_find (k : value) (d : registry) : option value :=
  match d with
  | [] => None
  | (k', v) :: d' => if key_eq k k' then Some v else registry_find k d'
  end.

(** [d[k]] when [k in d], after the hash of [k] was taken. *)
Definition registry_lookup (k : value) (d : registry) : exn + option value :=
  if hashable k then inr (registry_find k d) else inl (unhashable k).

Fixpoint registry_put (k v : value) (d : registry) : registry :=
  match d with
  | [] => [(k, v)]
  | (k', v') :: d' => if key_eq k k' then (k', v) :: d' else (k', v') :: registry_put k v d'
  end.

(** [d[k] = v] *)
Definition registry_set (k v : value) (d : registry) : exn + registry :=
  if hashable k then inr (registry_put k v d) else inl (unhashable k).

(** ** llm_provider.py *)

(** The two searches of [extract_tool_call]: the fenced block first, the
    whole stripped text when there is none; the result is [group(1)]. *)
Definition json_match (response_text : string) : option string :=
  match search_fenced response_text with
  | Some g => Some g
  | None => match_bare (strip response_text)
  end.

(** The body of the [try] of [LLMProvider.extract_tool_call]. *)
Definition extract_tool_call_body (rt : Runtime) (response_text : string)
  : exn + option value :=
  match json_match response_text with
  | Some json_str =>
      ebind (json_loads rt json_str) (fun tool_call =>
      ebind (py_in "tool" tool_call) (fun has_tool =>
      if has_tool then
        ebind (py_in "parameters" tool_call) (fun has_parameters =>
        if has_parameters then inr (Some tool_call) else inr None)
      else inr None))
  | None => inr None
  end.

(** [LLMProvider.extract_tool_call]: any exception of the body is printed
    and the method falls through to [return None]. *)
Definition extract_tool_call (rt : Runtime) (response_text : string) : option value :=
  match extract_tool_call_body rt response_text with
  | inr r => r
  | inl _ => None
  end.

(** An action as the model is told to write it: an object with the tool
    name and the parameter mapping. *)
Definition action (tool : string) (parameters : list (string * value)) : value :=
  VDict [("tool", VStr tool); ("parameters", VDict parameters)].

(** The interface of a provider: [format_tools] and [get_response]
    ([extract_tool_call] is the base class's for every provider). *)
Record LLMProvider (W : Type) : Type := mkProvider {
  format_tools : registry -> exn + value;
  get_response : list Memory.Message -> option value -> ST W string
}.
Arguments format_tools {W}.
Arguments get_response {W}.

(** The base class itself: both methods raise. *)
Definition BaseProvider (W : Type) : LLMProvider W :=
  mkProvider W
    (fun _ => inl (mkExn NotImplementedError "Subclasses must implement format_tools"))
    (fun _ _ => raise (mkExn NotImplementedError "Subclasses must implement get_response")).

(** [if tools:] on an optional list *)
Definition tools_given (tools : option value) : option value :=
  match tools with
  | Some v => if truthy v then Some v else None
  | None => None
  end.

(** [if not self.api_key] *)
Definition key_missing (k : option string) : bool :=
  match k with
  | None => true
  | Some s => String.eqb s EmptyString
  end.

(** [OpenAIProvider.format_tools] *)
Fixpoint openai_format_tools (tools : registry) : exn + list value :=
  match tools with
  | [] => inr []
  | (tool_name, tool_config) :: rest =>
      ebind (py_get tool_config "description" (VStr EmptyString)) (fun description =>
      ebind (py_get tool_config "parameters" (VDict [])) (fun parameters =>
      ebind (openai_format_tools rest) (fun formatted =>
      inr (VDict [("type", VStr "function");
                  ("function", VDict [("name", tool_name);
                                      ("description", description);
                                      ("parameters", parameters)])]
           :: formatted))))
  end.

(** [OpenAIProvider.get_response] *)
Definition openai_get_response (rt : Runtime) (model : string) (api_key : option string)
    (messages : list Memory.Message) (tools : option value) : ST (World rt) string :=
  if key_missing api_key then
    ret "Error: OpenAI API key not set. Please set the OPENAI_API_KEY environment variable."
  else
    try_except
      (if negb (find_spec rt "openai") then
         ret "Error: OpenAI module not installed. Please install it with 'pip install openai'"
       else openai_create rt model messages (tools_given tools))
      (fun e => ret ("Error calling OpenAI API: " ++ exn_msg e)).

Definition OpenAIProvider (rt : Runtime) : LLMProvider (World rt) :=
  mkProvider _
    (fun tools => ebind (openai_format_tools tools) (fun l => inr (VList l)))
    (openai_get_response rt "gpt-4" (environ rt "OPENAI_API_KEY")).

(** The loop of [AnthropicProvider.get_response] over the messages, from
    the pair [(system_prompt, spec_claude_messages)] built so far. *)
Fixpoint claude_loop (messages : list Memory.Message)
    (system_prompt : string) (spec_claude_messages : list Memory.Message)
  : string * list Memory.Message :=
  match messages with
  | [] => (system_prompt, spec_claude_messages)
  | msg :: rest =>
      if String.eqb (Memory.role msg) "system" then
        match spec_claude_messages with
        | [] => claude_loop rest (Memory.content msg) spec_claude_messages
        | _ =>
            claude_loop rest system_prompt
              (spec_claude_messages ++
               [Memory.mkMessage "assistant" ("System message: " ++ Memory.content msg)])%list
        end
      else if String.eqb (Memory.role msg) "user" then
        claude_loop rest system_prompt
          (spec_claude_messages ++ [Memory.mkMessage "user" (Memory.content msg)])%list
      else if String.eqb (Memory.role msg) "assistant" then
        claude_loop rest system_prompt
          (spec_claude_messages ++ [Memory.mkMessage "assistant" (Memory.content msg)])%list
      else claude_loop rest system_prompt spec_claude_messages
  end.

(** The [system] field and the message list sent to the vendor. *)
Definition claude_request (messages : list Memory.Message) : string * list Memory.Message :=
  claude_loop messages EmptyString [].

(** The mapping in the words of the specification, message by message,
    to compare the loop with: a system message becomes assistant narration
    marked as a system note, a user or an assistant message passes through,
    any other role is dropped. *)
Definition spec_claude_message (msg : Memory.Message) : list Memory.Message :=
  if String.eqb (Memory.role msg) "system" then
    [Memory.mkMessage "assistant" ("System message: " ++ Memory.content msg)]
  else if String.eqb (Memory.role msg) "user" then
    [Memory.mkMessage "user" (Memory.content msg)]
  else if String.eqb (Memory.role msg) "assistant" then
    [Memory.mkMessage "assistant" (Memory.content msg)]
  else [].

(** The list is empty or opens with a user or an assistant message. *)
Definition opens_with_turn (messages : list Memory.Message) : bool :=
  match messages with
  | [] => true
  | msg :: _ =>
      String.eqb (Memory.role msg) "user" || String.eqb (Memory.role msg) "assistant"
  end.

(** [AnthropicProvider.get_response] *)
Definition anthropic_get_response (rt : Runtime) (model : string) (api_key : option string)
    (messages : list Memory.Message) (tools : option value) : ST (World rt) string :=
  if key_missing api_key then
    ret "Error: Anthropic API key not set. Please set the ANTHROPIC_API_KEY environment variable."
  else
    try_except
      (if negb (find_spec rt "anthropic") then
         ret "Error: Anthropic module not installed. Please install it with 'pip install anthropic'"
       else
         let '(system_prompt, spec_claude_messages) := claude_request messages in
         anthropic_create rt model system_prompt spec_claude_messages)
      (fun e => ret ("Error calling Anthropic API: " ++ exn_msg e)).

Definition AnthropicProvider (rt : Runtime) : LLMProvider (World rt) :=
  mkProvider _
    (fun _ => inr (VList []))
    (anthropic_get_response rt "claude-3-opus-20240229" (environ rt "ANTHROPIC_API_KEY")).

(** [str.lower] on the letters A to Z (no other code point below 256
    lowers to a letter of a provider name). *)
Definition lower_char (c : ascii) : ascii :=
  let n := nat_of_ascii c in
  if ((65 <=? n) && (n <=? 90))%nat then ascii_of_nat (n + 32) else c.

Fixpoint lower (s : string) : string :=
  match s with
  | EmptyString => EmptyString
  | String c s' => String (lower_char c) (lower s')
  end.

(** [get_llm_provider] *)
Definition get_llm_provider (rt : Runtime) (provider_name : string)
  : exn + LLMProvider (World rt) :=
  if String.eqb (lower provider_name) "openai" then inr (OpenAIProvider rt)
  else if String.eqb (lower provider_name) "anthropic" then inr (AnthropicProvider rt)
  else inl (mkExn ValueError ("Unsupported LLM provider: " ++ provider_name)).

(** ** agent.py *)

(** What a [for] loop over a value visits. *)
Definition iterate (v : value) : exn + list value :=
  match v with
  | VList l => inr l
  | VStr s => inr (map (fun c => VStr (String c EmptyString)) (list_ascii_of_string s))
  | VDict d => inr (map (fun kv => VStr (fst kv)) d)
  | _ => inl (mkExn TypeError ("'" ++ type_name v ++ "' object is not iterable"))
  end.

(** An agent after construction.  [self.memory] is the one attribute that
    changes afterwards; it lives in the state of a turn. *)
Record Agent (rt : Runtime) : Type := mkAgent {
  config : value;
  name : value;
  tools : registry;
  llm : LLMProvider (World rt);
  llm_provider_name : string
}.
Arguments config {rt}.
Arguments name {rt}.
Arguments tools {rt}.
Arguments llm {rt}.
Arguments llm_provider_name {rt}.

(** One backend call: the arguments [get_response] was given. *)
Record Call : Type := mkCall { call_messages : list Memory.Message; call_tools : option value }.

(** The state a turn runs over: the agent's memory, the outside world, and
    the backend calls made so far (oldest first), kept for the record. *)
Record State (rt : Runtime) : Type := mkState {
  memory : Memory.t;
  world : World rt;
  calls : list Call
}.
Arguments memory {rt}.
Arguments world {rt}.
Arguments calls {rt}.
Arguments mkState {rt}.

(** [Agent._load_config] *)
Definition _load_config (rt : Runtime) (config_path : string) : ST (World rt) value :=
  (f <- read_file rt config_path ;;
   match f with
   | None => raise (mkExn FileNotFoundError ("Config file not found: " ++ config_path))
   | Some text =>
       match json_loads rt text with
       | inr v => ret v
       | inl e =>
           match exn_kind e with
           | JSONDecodeError =>
               raise (mkExn ValueError ("Invalid JSON in config file: " ++ exn_msg e))
           | _ => raise e
           end
       end
   end)%st.

(** The loop of [Agent._load_tools]. *)
Fixpoint load_tools_loop (rt : Runtime) (tool_names : list value) (tools : registry)
  : ST (World rt) registry :=
  match tool_names with
  | [] => ret tools
  | tool_name :: rest =>
      (let tool_config_path := "tools/" ++ py_str (repr rt) tool_name ++ ".json" in
       f <- read_file rt tool_config_path ;;
       match f with
       | None => load_tools_loop rt rest tools
       | Some text =>
           tool_config <- lift (json_loads rt text) ;;
           tools' <- lift (registry_set tool_name tool_config tools) ;;
           load_tools_loop rt rest tools'
       end)%st
  end.

(** [Agent._load_tools] *)
Definition _load_tools (rt : Runtime) (tool_names : value) : ST (World rt) registry :=
  (names <- lift (iterate tool_names) ;; load_tools_loop rt names [])%st.

(** [Agent.__init__]: the agent and its fresh memory. *)
Definition Agent_init (rt : Runtime) (config_path llm_provider : string)
  : ST (World rt) (Agent rt * Memory.t) :=
  (config <- _load_config rt config_path ;;
   name <- lift (py_get config "agent_name" (VStr "Assistant")) ;;
   config_data <- lift (py_get config "config" (VDict [])) ;;
   tool_names <- lift (py_get config_data "tools" (VList [])) ;;
   tools <- _load_tools rt tool_names ;;
   config_data' <- lift (py_get config "config" (VDict [])) ;;
   flag <- lift (py_get config_data' "memory" (VBool false)) ;;
   let memory := Memory.init 10 (truthy flag) in
   llm <- lift (get_llm_provider rt llm_provider) ;;
   ret (mkAgent rt config name tools llm llm_provider, memory))%st.

(** [create_agent] *)
Definition create_agent (rt : Runtime) (config_path llm_provider : string)
  : ST (World rt) (Agent rt * Memory.t) :=
  Agent_init rt config_path llm_provider.

(** [function_path.rsplit('.', 1)]: the text before and after the last
    dot, when there is one. *)
Fixpoint rsplit_dot (s : string) : option (string * string) :=
  match s with
  | EmptyString => None
  | String c s' =>
      match rsplit_dot s' with
      | Some (a, b) => Some (String c a, b)
      | None => if Ascii.eqb c "."%char then Some (EmptyString, s') else None
      end
  end.

(** [module_name, function_name = function_path.rsplit('.', 1)] *)
Definition split_function_path (function_path : value) : exn + (string * string) :=
  match function_path with
  | VStr s =>
      match rsplit_dot s with
      | Some p => inr p
      | None => inl (mkExn ValueError "not enough values to unpack (expected 2, got 1)")
      end
  | _ => inl (no_attribute function_path "rsplit")
  end.

(** [getattr(module, function_name)] *)
Definition getattr {W : Type} (module_name : string) (m : pymodule W) (function_name : string)
  : exn + callable W :=
  match m function_name with
  | Some f => inr f
  | None =>
      inl (mkExn AttributeError
             ("module '" ++ module_name ++ "' has no attribute '" ++ function_name ++ "'"))
  end.

(** The call of [function] with the keyword arguments [parameters], which
    must be a mapping. *)
Definition call_with {W : Type} (function : callable W) (parameters : value) : ST W value :=
  match parameters with
  | VDict _ => function parameters
  | _ =>
      raise (mkExn TypeError
               ("argument after ** must be a mapping, not " ++ type_name parameters))
  end.

(** [Agent._execute_tool] *)
Definition _execute_tool (rt : Runtime) (a : Agent rt) (tool_name parameters : value)
  : ST (World rt) value :=
  (found <- lift (registry_lookup tool_name (tools a)) ;;
   match found with
   | None => ret (VStr ("Error: Tool '" ++ py_str (repr rt) tool_name ++ "' not found"))
   | Some tool_config =>
       function_path <- lift (py_get tool_config "function" VNone) ;;
       if negb (truthy function_path) then
         ret (VStr ("Error: Function path not defined for tool '"
                    ++ py_str (repr rt) tool_name ++ "'"))
       else
         try_except
           (parts <- lift (split_function_path function_path) ;;
            module <- import_module rt (fst parts) ;;
            function <- lift (getattr (fst parts) module (snd parts)) ;;
            call_with function parameters)
           (fun e =>
              if is_import_or_attribute_error e
              then ret (VStr ("Error loading tool function: " ++ exn_msg e))
              else ret (VStr ("Error executing tool: " ++ exn_msg e)))
   end)%st.

Definition nl : string := String newline EmptyString.
Definition dq : string := String "034"%char EmptyString.
Definition quoted (s : string) : string := dq ++ s ++ dq.

(** The loop of [_create_system_prompt] over [self.tools.items()]. *)
Fixpoint tool_lines (rt : Runtime) (tools : registry) (system_prompt : string) : exn + string :=
  match tools with
  | [] => inr system_prompt
  | (tool_name, tool_config) :: rest =>
      ebind (py_get tool_config "description" (VStr EmptyString)) (fun description =>
      tool_lines rt rest
        (system_prompt ++ "- " ++ py_str (repr rt) tool_name ++ ": "
         ++ py_str (repr rt) description ++ nl))
  end.

(** The fixed block that closes every system prompt. *)
Definition tool_instructions : string :=
  nl ++ "To use a tool, use the following format:" ++ nl
  ++ fence ++ nl
  ++ "{" ++ nl
  ++ "  " ++ quoted "tool" ++ ": " ++ quoted "tool_name" ++ "," ++ nl
  ++ "  " ++ quoted "parameters" ++ ": {" ++ nl
  ++ "    " ++ quoted "param1" ++ ": " ++ quoted "value1" ++ "," ++ nl
  ++ "    " ++ quoted "param2" ++ ": " ++ quoted "value2" ++ nl
  ++ "  }" ++ nl
  ++ "}" ++ nl
  ++ fence ++ nl
  ++ nl
  ++ "First think about the request, then decide if you need to use a tool." ++ nl
  ++ "If you need to use a tool, output ONLY the JSON above." ++ nl
  ++ "After receiving tool results, respond to the user naturally." ++ nl.

(** [prompt_template.format(agent_name=.., backstory=.., task=..)] *)
Definition format_template (rt : Runtime) (prompt_template name backstory task : value)
  : exn + string :=
  match prompt_template with
  | VStr t => str_format rt t name backstory task
  | _ => inl (no_attribute prompt_template "format")
  end.

(** The default template, with the tool list and the think hint. *)
Definition default_prompt (rt : Runtime) (name backstory task think : value) (tools : registry)
  : exn + string :=
  let str := py_str (repr rt) in
  ebind
    (tool_lines rt tools
       ("You are " ++ str name ++ ". " ++ str backstory ++ nl
        ++ "Your task is to " ++ str task ++ "." ++ nl
        ++ nl
        ++ "You have access to the following tools:" ++ nl))
    (fun system_prompt =>
       if truthy think
       then inr (system_prompt ++ nl ++ "Thinking process: " ++ str think ++ nl)
       else inr system_prompt).

(** [Agent._create_system_prompt] *)
Definition _create_system_prompt (rt : Runtime) (a : Agent rt) : exn + string :=
  ebind (py_get (config a) "config" (VDict [])) (fun config_data =>
  ebind (py_get config_data "backstory" (VStr EmptyString)) (fun backstory =>
  ebind (py_get config_data "task" (VStr EmptyString)) (fun task =>
  ebind (py_get config_data "prompt_template" (VStr EmptyString)) (fun prompt_template =>
  ebind (py_get config_data "think" (VStr EmptyString)) (fun think =>
  ebind
    (if truthy prompt_template
     then format_template rt prompt_template (name a) backstory task
     else default_prompt rt (name a) backstory task think (tools a))
    (fun system_prompt => inr (system_prompt ++ tool_instructions))))))).

(** The entry [key] of the [config] object, as [_create_system_prompt]
    reads it. *)
Definition config_field {rt : Runtime} (a : Agent rt) (key : string) : exn + value :=
  ebind (py_get (config a) "config" (VDict [])) (fun config_data =>
  py_get config_data key (VStr EmptyString)).

(** The configuration carries a custom template ([if prompt_template:]). *)
Definition uses_template {rt : Runtime} (a : Agent rt) : bool :=
  match config_field a "prompt_template" with
  | inr t => truthy t
  | inl _ => false
  end.

(** Two agents with the same name, backstory, task and template; their
    tools and think hints are free. *)
Definition same_persona {rt : Runtime} (a a' : Agent rt) : Prop :=
  name a = name a' /\
  config_field a "backstory" = config_field a' "backstory" /\
  config_field a "task" = config_field a' "task" /\
  config_field a "prompt_template" = config_field a' "prompt_template".

(** The configuration has no memory flag: no [config] object, or one
    without the key. *)
Definition omits_memory_flag (config : value) : bool :=
  match config with
  | VDict d =>
      match assoc "config" d with
      | None => true
      | Some (VDict config_data) =>
          match assoc "memory" config_data with
          | None => true
          | Some _ => false
          end
      | Some _ => false
      end
  | _ => false
  end.

(** [Agent._format_tools_for_llm] *)
Definition _format_tools_for_llm (rt : Runtime) (a : Agent rt) : exn + value :=
  format_tools (llm a) (tools a).

(** [self.memory.add(role, content)] *)
Definition memory_add {rt : Runtime} (role content : string) : ST (State rt) unit :=
  fun s => (inr tt, mkState (Memory.add role content (memory s)) (world s) (calls s)).

(** [self.memory], read. *)
Definition get_memory {rt : Runtime} : ST (State rt) Memory.t :=
  fun s => (inr (memory s), s).

(** A computation over the outside world, run inside a turn. *)
Definition in_world {rt : Runtime} {A : Type} (m : ST (World rt) A) : ST (State rt) A :=
  fun s => let '(r, w) := m (world s) in (r, mkState (memory s) w (calls s)).

(** [self.llm.get_response(messages=.., tools=..)], entered in the record of calls. *)
Definition llm_get_response {rt : Runtime} (a : Agent rt)
    (messages : list Memory.Message) (tools : option value) : ST (State rt) string :=
  fun s =>
    in_world (get_response (llm a) messages tools)
      (mkState (memory s) (world s) (calls s ++ [mkCall messages tools])%list).

(** A computation of a turn leaves a disabled memory as it found it. *)
Definition keeps_disabled (rt : Runtime) {A : Type} (m : ST (State rt) A) : Prop :=
  forall s : State rt,
    Memory.enabled (memory s) = false -> memory (snd (m s)) = memory s.

(** The two messages appended after a dispatch. *)
Definition decision_message (dumped : string) : Memory.Message :=
  Memory.mkMessage "assistant" dumped.

Definition tool_result_message (rt : Runtime) (tool_result : value) : Memory.Message :=
  Memory.mkMessage "system" ("Tool result: " ++ py_str (repr rt) tool_result).

(** The branch [if tool_call:] of [process_query]. *)
Definition answer_with_tool (rt : Runtime) (a : Agent rt)
    (messages : list Memory.Message) (tool_call : value) : ST (State rt) string :=
  (tool_name <- lift (py_get tool_call "tool" VNone) ;;
   parameters <- lift (py_get tool_call "parameters" (VDict [])) ;;
   tool_result <- in_world (_execute_tool rt a tool_name parameters) ;;
   dumped <- lift (json_dumps rt tool_call) ;;
   let messages := (messages ++ [decision_message dumped])%list in
   let messages := (messages ++ [tool_result_message rt tool_result])%list in
   final_response <- llm_get_response a messages None ;;
   memory_add "assistant" final_response ;;;
   ret final_response)%st.

(** The [else] branch: the first reply is the answer. *)
Definition answer_plainly {rt : Runtime} (tool_response : string) : ST (State rt) string :=
  (memory_add "assistant" tool_response ;;; ret tool_response)%st.

(** The message list of the first call: the system prompt, the memory
    when it is enabled, the query. *)
Definition first_messages (system_prompt : string) (m : Memory.t) (query : string)
  : list Memory.Message :=
  let messages := [Memory.mkMessage "system" system_prompt] in
  let messages :=
    if Memory.is_enabled m then (messages ++ Memory.get_messages m)%list else messages in
  (messages ++ [Memory.mkMessage "user" query])%list.

(** The body of the [try] of [Agent.process_query]. *)
Definition process_query_body (rt : Runtime) (a : Agent rt) (query : string)
  : ST (State rt) string :=
  (system_prompt <- lift (_create_system_prompt rt a) ;;
   m <- get_memory ;;
   let messages := first_messages system_prompt m query in
   memory_add "user" query ;;;
   formatted <- lift (_format_tools_for_llm rt a) ;;
   tool_response <- llm_get_response a messages (Some formatted) ;;
   match extract_tool_call rt tool_response with
   | Some tool_call =>
       if truthy tool_call
       then answer_with_tool rt a messages tool_call
       else answer_plainly tool_response
   | None => answer_plainly tool_response
   end)%st.

(** [Agent.process_query] *)
Definition process_query (rt : Runtime) (a : Agent rt) (query : string)
  : ST (State rt) string :=
  try_except (process_query_body rt a query)
    (fun e => ret ("Error processing query: " ++ exn_msg e)).

(** [run_agent], and a session of queries in order: the answers, oldest
    first, and the state they leave. *)
Definition run_agent (rt : Runtime) (a : Agent rt) (query : string) : ST (State rt) string :=
  process_query rt a query.

Fixpoint run_session (rt : Runtime) (a : Agent rt) (queries : list string) (s : State rt)
  : list (exn + string) * State rt :=
  match queries with
  | [] => ([], s)
  | q :: rest =>
      let '(r, s') := run_agent rt a q s in
      let '(rs, s'') := run_session rt a rest s' in
      (r :: rs, s'')
  end.

(** ** A reference interpreter

    One concrete [Runtime], to run the definitions above on examples: a
    JSON codec for the values of [value] (a number literal with a fraction
    or an exponent is rejected, [value] having no float), the replacement
    fields of [str.format] that the agent passes, a plain [repr], files and
    tool modules given as tables, and a backend that answers from a script. *)

Module Ref.

Definition bslash : ascii := "\"%char.
Definition dquote : ascii := "034"%char.

Definition hex_digit (n : nat) : ascii :=
  if (n <? 10)%nat then ascii_of_nat (48 + n) else ascii_of_nat (87 + n).

(** [json.dumps] of one character of a string, [ensure_ascii] being on. *)
Definition escape_char (c : ascii) : string :=
  let n := nat_of_ascii c in
  let esc (x : string) := String bslash x in
  if (n =? 34)%nat then esc dq
  else if (n =? 92)%nat then esc (String bslash EmptyString)
  else if (n =? 10)%nat then esc "n"
  else if (n =? 13)%nat then esc "r"
  else if (n =? 9)%nat then esc "t"
  else if (n =? 8)%nat then esc "b"
  else if (n =? 12)%nat then esc "f"
  else if ((32 <=? n) && (n <=? 126))%nat then String c EmptyString
  else esc ("u00" ++ String (hex_digit (n / 16)) (String (hex_digit (n mod 16)) EmptyString)).

Fixpoint escape (s : string) : string :=
  match s with
  | EmptyString => EmptyString
  | String c s' => escape_char c ++ escape s'
  end.

Definition dumps_string (s : string) : string := dq ++ escape s ++ dq.

Fixpoint join (sep : string) (l : list string) : string :=
  match l with
  | [] => EmptyString
  | [x] => x
  | x :: rest => x ++ sep ++ join sep rest
  end.

(** [json.dumps] with its default separators. *)
Fixpoint dumps (v : value) : string :=
  match v with
  | VNone => "null"
  | VBool true => "true"
  | VBool false => "false"
  | VInt n => Z_to_string n
  | VStr s => dumps_string s
  | VList l => "[" ++ join ", " (map dumps l) ++ "]"
  | VDict d =>
      "{" ++ join ", " (map (fun kv : string * value =>
                           let (k, x) := kv in dumps_string k ++ ": " ++ dumps x) d)
      ++ "}"
  end.

Definition json_space (c : ascii) : bool :=
  let n := nat_of_ascii c in
  ((n =? 32) || (n =? 9) || (n =? 10) || (n =? 13))%nat.

Fixpoint skip_space (s : string) : string :=
  match s with
  | EmptyString => EmptyString
  | String c s' => if json_space c then skip_space s' else s
  end.

Definition digit (c : ascii) : option Z :=
  let n := nat_of_ascii c in
  if ((48 <=? n) && (n <=? 57))%nat then Some (Z.of_nat (n - 48)) else None.

Definition hex (c : ascii) : option nat :=
  let n := nat_of_ascii c in
  if ((48 <=? n) && (n <=? 57))%nat then Some (n - 48)%nat
  else if ((97 <=? n) && (n <=? 102))%nat then Some (n - 87)%nat
  else if ((65 <=? n) && (n <=? 70))%nat then Some (n - 55)%nat
  else None.

Fixpoint digits (s : string) (acc : Z) : Z * string :=
  match s with
  | EmptyString => (acc, s)
  | String c s' =>
      match digit c with
      | Some d => digits s' (10 * acc + d)
      | None => (acc, s)
      end
  end.

(** The integer part of a number, after the sign: [0] or a digit run that
    does not open with a zero. *)
Definition natural (s : string) : option (Z * string) :=
  match s with
  | EmptyString => None
  | String c s' =>
      match digit c with
      | Some 0 => Some (0, s')
      | Some d => Some (digits s' d)
      | None => None
      end
  end.

Definition float_mark (s : string) : bool :=
  match s with
  | String c _ => Ascii.eqb c "."%char || Ascii.eqb c "e"%char || Ascii.eqb c "E"%char
  | EmptyString => false
  end.

Definition number (s : string) : option (value * string) :=
  let '(neg, r) :=
    match s with
    | String c r => if Ascii.eqb c "-"%char then (true, r) else (false, s)
    | EmptyString => (false, s)
    end in
  match natural r with
  | Some (n, rest) =>
      if float_mark rest then None else Some (VInt (if neg then - n else n), rest)
  | None => None
  end.

(** A string after its opening quote: up to the closing quote, escapes
    decoded, no raw control character. *)
Fixpoint string_body (s : string) : option (string * string) :=
  match s with
  | EmptyString => None
  | String c r =>
      if Ascii.eqb c dquote then Some (EmptyString, r)
      else if Ascii.eqb c bslash then
        match r with
        | String e r' =>
            let keep (x : ascii) :=
              option_map (fun p => (String x (fst p), snd p)) (string_body r') in
            if Ascii.eqb e dquote then keep dquote
            else if Ascii.eqb e bslash then keep bslash
            else if Ascii.eqb e "/"%char then keep "/"%char
            else if Ascii.eqb e "n"%char then keep "010"%char
            else if Ascii.eqb e "r"%char then keep "013"%char
            else if Ascii.eqb e "t"%char then keep "009"%char
            else if Ascii.eqb e "b"%char then keep "008"%char
            else if Ascii.eqb e "f"%char then keep "012"%char
            else if Ascii.eqb e "u"%char then
              match r' with
              | String h1 (String h2 (String h3 (String h4 r''))) =>
                  match hex h1, hex h2, hex h3, hex h4 with
                  | Some 0%nat, Some 0%nat, Some a, Some b =>
                      option_map (fun p => (String (ascii_of_nat (16 * a + b)) (fst p), snd p))
                        (string_body r'')
                  | _, _, _, _ => None
                  end
              | _ => None
              end
            else None
        | EmptyString => None
        end
      else if (nat_of_ascii c <? 32)%nat then None
      else option_map (fun p => (String c (fst p), snd p)) (string_body r)
  end.

(** A dict from its pairs in order: a repeated key keeps its first place
    and takes the last value. *)
Fixpoint dict_put (k : string) (v : value) (d : list (string * value)) : list (string * value) :=
  match d with
  | [] => [(k, v)]
  | (k', v') :: d' => if String.eqb k k' then (k', v) :: d' else (k', v') :: dict_put k v d'
  end.

Definition dict_of (pairs : list (string * value)) : list (string * value) :=
  fold_left (fun d kv => dict_put (fst kv) (snd kv) d) pairs [].

Definition literal (word : string) (v : value) (s : string) : option (value * string) :=
  option_map (fun r => (v, r)) (strip_prefix word s).

(** The recursive descent, bounded by [fuel] calls. *)
Fixpoint parse_value (fuel : nat) (s : string) {struct fuel} : option (value * string) :=
  match fuel with
  | O => None
  | S f =>
      match skip_space s with
      | EmptyString => None
      | String c r as t =>
          if Ascii.eqb c lbrace then
            match skip_space r with
            | String c' r' =>
                if Ascii.eqb c' rbrace then Some (VDict [], r')
                else option_map (fun p => (VDict (dict_of (fst p)), snd p)) (parse_members f r)
            | EmptyString => None
            end
          else if Ascii.eqb c "["%char then
            match skip_space r with
            | String c' r' =>
                if Ascii.eqb c' "]"%char then Some (VList [], r')
                else option_map (fun p => (VList (fst p), snd p)) (parse_elements f r)
            | EmptyString => None
            end
          else if Ascii.eqb c dquote then
            option_map (fun p => (VStr (fst p), snd p)) (string_body r)
          else if Ascii.eqb c "n"%char then literal "null" VNone t
          else if Ascii.eqb c "t"%char then literal "true" (VBool true) t
          else if Ascii.eqb c "f"%char then literal "false" (VBool false) t
          else number t
      end
  end
with parse_elements (fuel : nat) (s : string) {struct fuel} : option (list value * string) :=
  match fuel with
  | O => None
  | S f =>
      match parse_value f s with
      | Some (v, r) =>
          match skip_space r with
          | String c r' =>
              if Ascii.eqb c ","%char then
                option_map (fun p => (v :: fst p, snd p)) (parse_elements f r')
              else if Ascii.eqb c "]"%char then Some ([v], r')
              else None
          | EmptyString => None
          end
      | None => None
      end
  end
with parse_members (fuel : nat) (s : string) {struct fuel}
  : option (list (string * value) * string) :=
  match fuel with
  | O => None
  | S f =>
      match skip_space s with
      | String q r =>
          if Ascii.eqb q dquote then
            match string_body r with
            | Some (k, r1) =>
                match skip_space r1 with
                | String c r2 =>
                    if Ascii.eqb c ":"%char then
                      match parse_value f r2 with
                      | Some (v, r3) =>
                          match skip_space r3 with
                          | String c' r4 =>
                              if Ascii.eqb c' ","%char then
                                option_map (fun p => ((k, v) :: fst p, snd p))
                                  (parse_members f r4)
                              else if Ascii.eqb c' rbrace then Some ([(k, v)], r4)
                              else None
                          | EmptyString => None
                          end
                      | None => None
                      end
                    else None
                | EmptyString => None
                end
            | None => None
            end
          else None
      | EmptyString => None
      end
  end.

(** [json.loads] *)
Definition loads (s : string) : exn + value :=
  match parse_value (2 * String.length s + 2) s with
  | Some (v, rest) =>
      match skip_space rest with
      | EmptyString => inr v
      | _ => inl (mkExn JSONDecodeError "Extra data")
      end
  | None => inl (mkExn JSONDecodeError "Expecting value")
  end.

(** A plain [repr]: elements between brackets, strings between single
    quotes as they are. *)
Fixpoint repr (v : value) : string :=
  match v with
  | VNone => "None"
  | VBool true => "True"
  | VBool false => "False"
  | VInt n => Z_to_string n
  | VStr s => "'" ++ s ++ "'"
  | VList l => "[" ++ join ", " (map repr l) ++ "]"
  | VDict d =>
      "{" ++ join ", " (map (fun kv : string * value =>
                           let (k, x) := kv in "'" ++ k ++ "': " ++ repr x) d)
      ++ "}"
  end.

(** [str.format] with the keyword arguments of the agent: the fields
    [{agent_name}], [{backstory}] and [{task}], and doubled braces.
    [field] is the name read so far inside a field. *)
Fixpoint format_loop (t : string) (field : option string) (lookup : string -> option string)
  : exn + string :=
  match field, t with
  | None, EmptyString => inr EmptyString
  | Some _, EmptyString => inl (mkExn ValueError "expected '}' before end of string")
  | None, String c r =>
      if Ascii.eqb c lbrace then
        match r with
        | String c' r' =>
            if Ascii.eqb c' lbrace
            then ebind (format_loop r' None lookup) (fun x => inr (String lbrace x))
            else format_loop r (Some EmptyString) lookup
        | EmptyString => inl (mkExn ValueError "Single '{' encountered in format string")
        end
      else if Ascii.eqb c rbrace then
        match r with
        | String c' r' =>
            if Ascii.eqb c' rbrace
            then ebind (format_loop r' None lookup) (fun x => inr (String rbrace x))
            else inl (mkExn ValueError "Single '}' encountered in format string")
        | EmptyString => inl (mkExn ValueError "Single '}' encountered in format string")
        end
      else ebind (format_loop r None lookup) (fun x => inr (String c x))
  | Some f, String c r =>
      if Ascii.eqb c rbrace then
        match lookup f with
        | Some x => ebind (format_loop r None lookup) (fun y => inr (x ++ y))
        | None => inl (mkExn KeyError ("'" ++ f ++ "'"))
        end
      else format_loop r (Some (f ++ String c EmptyString)) lookup
  end.

Definition format (t : string) (agent_name backstory task : value) : exn + string :=
  format_loop t None
    (fun f =>
       if String.eqb f "agent_name" then Some (py_str repr agent_name)
       else if String.eqb f "backstory" then Some (py_str repr backstory)
       else if String.eqb f "task" then Some (py_str repr task)
       else None).

(** The outside world of the examples: the number of backend replies
    given so far. *)
Definition world : Type := nat.

(** A backend that answers from a script, one reply per call. *)
Definition scripted (replies : list string) : ST world string :=
  fun n => (inr (nth n replies EmptyString), S n).

(** [evaluate(expression)] of a calculator that knows one sum. *)
Definition evaluate : callable world :=
  fun parameters =>
    match py_get parameters "expression" VNone with
    | inr (VStr e) =>
        if String.eqb e "2+2" then ret (VInt 4)
        else ret (VStr ("Error evaluating expression: " ++ e))
    | _ => raise (mkExn TypeError "evaluate() missing 1 required positional argument")
    end.

(** Two tools that fail while they run: one reads an attribute of [None],
    one divides by zero. *)
Definition reads_none : callable world :=
  fun _ => raise (mkExn AttributeError "'NoneType' object has no attribute 'value'").

Definition divides_by_zero : callable world :=
  fun _ => raise (mkExn (OtherException "ZeroDivisionError") "division by zero").

Definition modules (module_name : string) : ST world (pymodule world) :=
  if String.eqb module_name "tools.calculator" then
    ret (fun f => if String.eqb f "evaluate" then Some evaluate else None)
  else if String.eqb module_name "tools.faulty" then
    ret (fun f =>
           if String.eqb f "reads_none" then Some reads_none
           else if String.eqb f "divides_by_zero" then Some divides_by_zero
           else None)
  else raise (mkExn ModuleNotFoundError ("No module named '" ++ module_name ++ "'")).

(** The reference runtime over given files, environment and backend script. *)
Definition runtime (files env : list (string * string)) (replies : list string) : Runtime :=
  mkRuntime world loads (fun v => inr (dumps v)) repr format
    (fun k => assoc k env) (fun _ => true) modules
    (fun path => ret (assoc path files))
    (fun _ _ _ => scripted replies)
    (fun _ _ _ => scripted replies).

(** A descriptor as [ToolManager.create_tool_config] writes it. *)
Definition tool_config (tool_name description function_path : string) : value :=
  VDict [("name", VStr tool_name);
         ("description", VStr description);
         ("function", VStr function_path);
         ("parameters", VDict [("type", VStr "object");
                               ("properties", VDict []);
                               ("required", VList [])]);
         ("keywords", VList [])].

Definition calculator_config : value :=
  tool_config "calculator" "Evaluate a mathematical expression" "tools.calculator.evaluate".

(** The agent configuration of [ToolManager.setup_basic_config], with and
    without its memory flag. *)
Definition math_config (memory_flag : option bool) : value :=
  VDict [("agent_name", VStr "MathAssistant");
         ("config",
          VDict ([("backstory", VStr "I am a helpful assistant with math skills.");
                  ("task", VStr "help users solve mathematical problems");
                  ("tools", VList [VStr "calculator"])]
                 ++ match memory_flag with
                    | Some b => [("memory", VBool b)]
                    | None => []
                    end)%list)].

Definition files (memory_flag : option bool) : list (string * string) :=
  [("agent_config.json", dumps (math_config memory_flag));
   ("tools/calculator.json", dumps calculator_config)].

Definition env : list (string * string) := [("OPENAI_API_KEY", "sk-test")].

(** The action of the calculator scenario and the reply that carries it. *)
Definition sum_action : value :=
  VDict [("tool", VStr "calculator"); ("parameters", VDict [("expression", VStr "2+2")])].

Definition sum_script : list string := [dumps sum_action; "The answer is 4."].

(** The runtime of the calculator scenario, and the agent that
    [Agent_init] builds in it. *)
Definition math_rt (memory_flag : option bool) : Runtime :=
  runtime (files memory_flag) env sum_script.

Definition math_agent (memory_flag : option bool) : Agent (math_rt memory_flag) :=
  mkAgent (math_rt memory_flag) (math_config memory_flag) (VStr "MathAssistant")
    [(VStr "calculator", calculator_config)] (OpenAIProvider (math_rt memory_flag)) "openai".

Definition math_state (memory_flag : option bool) (enabled : bool)
  : State (math_rt memory_flag) :=
  @mkState (math_rt memory_flag) (Memory.init 10 enabled) 0%nat [].

Definition sum_query : string := "What is 2 + 2?".

(** A registry whose tools fail in different ways: two raise while they
    run, one has a path with no module part. *)
Definition faulty_tools : registry :=
  [(VStr "reader", tool_config "reader" "Read a value" "tools.faulty.reads_none");
   (VStr "divider", tool_config "divider" "Divide" "tools.faulty.divides_by_zero");
   (VStr "bare", tool_config "bare" "A path with no dot" "evaluate");
   (VStr "calculator", calculator_config)].

(** A configuration with a custom template, and one whose [config] entry
    is not an object. *)
Definition template_config (think : string) : value :=
  VDict [("agent_name", VStr "MathAssistant");
         ("config",
          VDict [("backstory", VStr "I like sums.");
                 ("task", VStr "add numbers");
                 ("prompt_template", VStr "You are {agent_name}. {backstory} Please {task}.");
                 ("think", VStr think)])].

Definition broken_config : value :=
  VDict [("agent_name", VStr "MathAssistant"); ("config", VList [])].

(** The runtime of the extraction examples: no file, no backend reply. *)
Definition rt0 : Runtime := runtime [] [] [].

(** A reply that names a tool and no parameters. *)
Definition only_tool : string := dumps (VDict [("tool", VStr "t")]).

Definition agent0 (config : value) (tools : registry) : Agent rt0 :=
  mkAgent rt0 config (VStr "MathAssistant") tools (OpenAIProvider rt0) "openai".

(** An agent over the base class of the providers. *)
Definition base_agent : Agent rt0 :=
  mkAgent rt0 (math_config (Some true)) (VStr "MathAssistant") [] (BaseProvider (World rt0))
    "openai".

Definition state0 (enabled : bool) : State rt0 :=
  @mkState rt0 (Memory.init 10 enabled) 0%nat [].

End Ref.

(** ** Invariants of a turn *)

(** A user or an assistant turn. *)
Definition is_turn (msg : Memory.Message) : bool :=
  String.eqb (Memory.role msg) "user" || String.eqb (Memory.role msg) "assistant".

(** A computation of a turn keeps the property [I] of the memory. *)
Definition preserves (rt : Runtime) (I : Memory.t -> Prop) {A : Type}
    (m : ST (State rt) A) : Prop :=
  forall s : State rt, I (memory s) -> I (memory (snd (m s))).

(** The calls a turn added to the record: [l] is [l0] followed by them. *)
Fixpoint added_calls (l0 l : list Call) : option (list Call) :=
  match l0, l with
  | [], _ => Some l
  | _ :: l0', _ :: l' => added_calls l0' l'
  | _ :: _, [] => None
  end.

(** The turns that the first call of a turn replays. *)
Definition replayed (m : Memory.t) : list Memory.Message :=
  if Memory.is_enabled m then Memory.get_messages m else [].

(** The pieces of the default template: the persona lines, one line per
    tool, the think hint. *)
Definition persona_header (rt : Runtime) (name backstory task : value) : string :=
  "You are " ++ py_str (repr rt) name ++ ". " ++ py_str (repr rt) backstory ++ nl
  ++ "Your task is to " ++ py_str (repr rt) task ++ "." ++ nl
  ++ nl
  ++ "You have access to the following tools:" ++ nl.

Definition is_object (v : value) : bool :=
  match v with
  | VDict _ => true
  | _ => false
  end.

Definition description_of (tool_config : value) : value :=
  match tool_config with
  | VDict d => match assoc "description" d with Some x => x | None => VStr EmptyString end
  | _ => VStr EmptyString
  end.

Definition tool_line (rt : Runtime) (entry : value * value) : string :=
  "- " ++ py_str (repr rt) (fst entry) ++ ": "
  ++ py_str (repr rt) (description_of (snd entry)) ++ nl.

Fixpoint tool_roster (rt : Runtime) (tools : registry) : string :=
  match tools with
  | [] => EmptyString
  | entry :: rest => tool_line rt entry ++ tool_roster rt rest
  end.

Definition think_hint (rt : Runtime) (think : value) : string :=
  if truthy think
  then nl ++ "Thinking process: " ++ py_str (repr rt) think ++ nl
  else EmptyString.

(** ** tool.py *)

(** [x or []] on an optional list of strings. *)
Definition or_empty (l : option (list string)) : value :=
  match l with
  | Some (x :: rest) => VList (map VStr (x :: rest))
  | _ => VList []
  end.

(** The dict [tool_config] of [ToolManager.create_tool_config]. *)
Definition tool_descriptor (tool_name description function_path : string)
    (parameters : list (string * value)) (required_params keywords : option (list string))
  : value :=
  VDict [("name", VStr tool_name);
         ("description", VStr description);
         ("function", VStr function_path);
         ("parameters", VDict [("type", VStr "object");
                               ("properties", VDict parameters);
                               ("required", or_empty required_params)]);
         ("keywords", or_empty keywords)].

(** The files on disk, by path: the first entry of a path is its text
    (directories are not kept). *)
Definition disk : Type := list (string * string).

(** [with open(path, 'w') as f: f.write(text)] *)
Definition write_file (path text : string) (d : disk) : disk := (path, text) :: d.

(** [ToolManager.create_tool_config], over the rendering [dump] that
    [json.dump(.., indent=2)] makes of a value. *)
Definition create_tool_config (dump : value -> string)
    (tool_name description function_path : string)
    (parameters : list (string * value)) (required_params keywords : option (list string))
    (d : disk) : disk :=
  write_file ("tools/" ++ tool_name ++ ".json")
    (dump (tool_descriptor tool_name description function_path parameters
             required_params keywords))
    d.

(** The text of [tools/calculator/evaluate.py]. *)
Definition evaluate_py : string :=
  "import math" ++ nl
  ++ nl
  ++ "def evaluate(expression):" ++ nl
  ++ "    " ++ dq ++ dq ++ dq ++ nl
  ++ "    Safely evaluate a mathematical expression" ++ nl
  ++ "    " ++ nl
  ++ "    Args:" ++ nl
  ++ "        expression (str): The mathematical expression to evaluate" ++ nl
  ++ "        " ++ nl
  ++ "    Returns:" ++ nl
  ++ "        float or str: The result of the evaluation, or an error message" ++ nl
  ++ "    " ++ dq ++ dq ++ dq ++ nl
  ++ "    try:" ++ nl
  ++ "        # Create a safe environment with only math functions" ++ nl
  ++ "        safe_dict = {" ++ nl
  ++ "            'abs': abs," ++ nl
  ++ "            'round': round," ++ nl
  ++ "            'min': min," ++ nl
  ++ "            'max': max," ++ nl
  ++ "            'sum': sum," ++ nl
  ++ "            'pow': pow" ++ nl
  ++ "        }" ++ nl
  ++ "        " ++ nl
  ++ "        # Add all math module functions" ++ nl
  ++ "        for name in dir(math):" ++ nl
  ++ "            if not name.startswith('__'):" ++ nl
  ++ "                safe_dict[name] = getattr(math, name)" ++ nl
  ++ "        " ++ nl
  ++ "        # Evaluate the expression" ++ nl
  ++ "        result = eval(expression, {" ++ quoted "__builtins__" ++ ": {}}, safe_dict)" ++ nl
  ++ "        return result" ++ nl
  ++ "    except Exception as e:" ++ nl
  ++ "        return f" ++ dq ++ "Error evaluating expression: {str(e)}" ++ dq ++ nl.

(** [ToolManager.register_basic_tools] *)
Definition register_basic_tools (dump : value -> string) (d : disk) : disk :=
  let d1 :=
    create_tool_config dump "calculator" "Evaluate a mathematical expression"
      "tools.calculator.evaluate"
      [("expression",
        VDict [("type", VStr "string");
               ("description",
                VStr "Mathematical expression to evaluate (e.g. '2 + 2')")])]
      (Some ["expression"]) None d in
  let d2 := write_file "tools/calculator/__init__.py" "# Calculator tool package" d1 in
  write_file "tools/calculator/evaluate.py" evaluate_py d2.

(** The dict [agent_config] of [ToolManager.setup_basic_config]. *)
Definition basic_agent_config : value :=
  VDict [("agent_name", VStr "MathAssistant");
         ("config",
          VDict [("backstory", VStr "I am a helpful assistant with math skills.");
                 ("task",
                  VStr "help users solve mathematical problems using my calculator tool when needed");
                 ("tools", VList [VStr "calculator"]);
                 ("memory", VBool true)])].

(** [ToolManager.setup_basic_config] *)
Definition setup_basic_config (dump : value -> string) (d : disk) : disk :=
  write_file "agent_config.json" (dump basic_agent_config) (register_basic_tools dump d).

(** The start of [main]: the configuration is set up when it is not
    there. *)
Definition ensure_config (dump : value -> string) (d : disk) : disk :=
  match assoc "agent_config.json" d with
  | Some _ => d
  | None => setup_basic_config dump d
  end.

(** ** Texts and conditions that the theorems of Part II use *)

(** The replies of the two providers when their credential is missing. *)
Definition openai_no_key : string :=
  "Error: OpenAI API key not set. Please set the OPENAI_API_KEY environment variable.".

Definition anthropic_no_key : string :=
  "Error: Anthropic API key not set. Please set the ANTHROPIC_API_KEY environment variable.".

(** The runtime reads its files from the disk [d], and reading changes
    nothing. *)
Definition reads_disk (rt : Runtime) (d : disk) : Prop :=
  forall (path : string) (w : World rt), read_file rt path w = (inr (assoc path d), w).

(** The descriptor that [register_basic_tools] writes for the calculator. *)
Definition calculator_descriptor : value :=
  tool_descriptor "calculator" "Evaluate a mathematical expression"
    "tools.calculator.evaluate"
    [("expression",
      VDict [("type", VStr "string");
             ("description",
              VStr "Mathematical expression to evaluate (e.g. '2 + 2')")])]
    (Some ["expression"]) None.

(** The keys of a registry. *)
Definition registry_keys (d : registry) : list value := map fst d.

(** ** More examples *)

Module RefMore.

(** A provider whose backend cannot be reached. *)
Definition offline_provider : LLMProvider Ref.world :=
  mkProvider Ref.world
    (fun _ => inr (VList []))
    (fun _ _ => raise (mkExn (OtherException "ConnectionError") "backend unreachable")).

Definition offline_agent : Agent Ref.rt0 :=
  mkAgent Ref.rt0 (Ref.math_config (Some true)) (VStr "MathAssistant") []
    offline_provider "openai".

(** A reply whose tool entry is a list. *)
Definition list_tool_action : value :=
  VDict [("tool", VList [VStr "calculator"]); ("parameters", VDict [])].

Definition list_tool_rt : Runtime :=
  Ref.runtime (Ref.files (Some true)) Ref.env [Ref.dumps list_tool_action].

Definition list_tool_agent : Agent list_tool_rt :=
  mkAgent list_tool_rt (Ref.math_config (Some true)) (VStr "MathAssistant")
    [(VStr "calculator", Ref.calculator_config)] (OpenAIProvider list_tool_rt) "openai".

(** The scenario with no credential in the environment. *)
Definition no_key_rt : Runtime := Ref.runtime (Ref.files (Some true)) [] Ref.sum_script.

Definition no_key_agent : Agent no_key_rt :=
  mkAgent no_key_rt (Ref.math_config (Some true)) (VStr "MathAssistant")
    [(VStr "calculator", Ref.calculator_config)] (OpenAIProvider no_key_rt) "openai".

(** The scenario with a plain reply. *)
Definition plain_rt : Runtime :=
  Ref.runtime (Ref.files (Some true)) Ref.env ["Hello, how can I help?"].

Definition plain_agent : Agent plain_rt :=
  mkAgent plain_rt (Ref.math_config (Some true)) (VStr "MathAssistant")
    [(VStr "calculator", Ref.calculator_config)] (OpenAIProvider plain_rt) "openai".

(** A runtime over the disk that [setup_basic_config] leaves. *)
Definition fresh_rt : Runtime :=
  Ref.runtime (setup_basic_config Ref.dumps []) Ref.env Ref.sum_script.

End RefMore.

(** * Part II: theorems *)

(** ** Lists *)

Section ListFacts.

Context {A : Type}.
Local Open Scope list_scope.

Lemma lastn_length (n : nat) (l : list A) :
  List.length (lastn n l) = Nat.min n (List.length l).
Proof. unfold lastn. rewrite length_skipn. lia. Qed.

Lemma lastn_short (n : nat) (l : list A) :
  (List.length l <= n)%nat -> lastn n l = l.
Proof.
  intros H. unfold lastn.
  replace (List.length l - n)%nat with 0%nat by lia. reflexivity.
Qed.

Lemma lastn_app_lastn (n : nat) (l l' : list A) :
  lastn n (lastn n l ++ l') = lastn n (l ++ l').
Proof.
  destruct (Nat.le_gt_cases (List.length l) n) as [Hle | Hgt].
  - rewrite (lastn_short n l Hle). reflexivity.
  - unfold lastn at 1 3.
    rewrite !length_app, lastn_length.
    replace (Nat.min n (List.length l)) with n by lia.
    unfold lastn.
    set (k := (List.length l - n)%nat).
    replace (skipn k l ++ l') with (skipn k (l ++ l')).
    + rewrite skipn_skipn. f_equal. lia.
    + rewrite skipn_app. replace (k - List.length l)%nat with 0%nat by lia. reflexivity.
Qed.

(** The slice [l[-n:]] keeps the last [n] elements, for a positive [n]. *)
Lemma slice_from_neg (n : Z) (l : list A) :
  1 <= n -> slice_from (- n) l = lastn (Z.to_nat n) l.
Proof.
  intros Hn. unfold slice_from, lastn.
  replace (- n <? 0) with true by (symmetry; apply Z.ltb_lt; lia).
  f_equal. lia.
Qed.

(** The slice [l[-0:]] is the whole list. *)
Lemma slice_from_zero (l : list A) : slice_from (- 0) l = l.
Proof. unfold slice_from. simpl. rewrite Z.min_l by lia. reflexivity. Qed.

End ListFacts.

(** ** Bounded memory *)

Module MemoryFacts.

Import Memory.
Local Open Scope list_scope.

Lemma add_disabled (r c : string) (m : t) :
  enabled m = false -> add r c m = m.
Proof. intros H. unfold add. rewrite H. reflexivity. Qed.

(** One [add] on an enabled memory of positive capacity. *)
Lemma add_enabled (r c : string) (m : t) :
  enabled m = true -> 1 <= max_items m ->
  add r c m =
  mk (lastn (Z.to_nat (max_items m)) (messages m ++ [mkMessage r c])) (max_items m) true.
Proof.
  intros He Hn. unfold add. rewrite He. cbn [negb].
  destruct (Z.of_nat (List.length (messages m ++ [mkMessage r c])) >? max_items m) eqn:Hc.
  - rewrite slice_from_neg by exact Hn. reflexivity.
  - rewrite lastn_short; [reflexivity |].
    rewrite Z.gtb_ltb in Hc. apply Z.ltb_ge in Hc. lia.
Qed.

Lemma add_all_app (l l' : list Message) (m : t) :
  add_all (l ++ l') m = add_all l' (add_all l m).
Proof. unfold add_all. apply fold_left_app. Qed.

(** A run of adds on an enabled memory of positive capacity keeps the
    last [max_items] of what was stored and what was added. *)
Lemma add_all_enabled (l : list Message) :
  forall m : t,
    enabled m = true -> 1 <= max_items m ->
    (List.length (messages m) <= Z.to_nat (max_items m))%nat ->
    add_all l m = mk (lastn (Z.to_nat (max_items m)) (messages m ++ l)) (max_items m) true.
Proof.
  induction l as [| x l IH]; intros m He Hn Hlen.
  - cbn. rewrite app_nil_r, lastn_short by exact Hlen.
    destruct m as [ms n e]. cbn in *. subst e. reflexivity.
  - cbn [add_all fold_left]. fold (add_all l (add (role x) (content x) m)).
    rewrite (add_enabled _ _ m He Hn).
    rewrite IH; cbn [enabled max_items messages]; try assumption; try reflexivity.
    + rewrite lastn_app_lastn, <- app_assoc.
      destruct x as [r c]. reflexivity.
    + rewrite lastn_length. lia.
Qed.

(** The memory of positive capacity, from its construction: after any run
    of adds it holds the last [N] of them, in order, and never more than
    [N] turns. *)
Lemma add_all_from_init (N : Z) (l : list Message) :
  1 <= N ->
  get_messages (add_all l (init N true)) = lastn (Z.to_nat N) l /\
  (List.length (get_messages (add_all l (init N true))) <= Z.to_nat N)%nat.
Proof.
  intros HN.
  assert (H : add_all l (init N true) = mk (lastn (Z.to_nat N) l) N true).
  { apply (add_all_enabled l (init N true)); [reflexivity | exact HN | cbn; lia]. }
  rewrite H. unfold get_messages. cbn [messages].
  split; [reflexivity |]. rewrite lastn_length. lia.
Qed.

(** The capacity-boundary scenario: capacity 2, adds A, B, C. *)
Example capacity_two_keeps_last_two (a b c : Message) :
  get_messages (add_all [a; b; c] (init 2 true)) = [b; c].
Proof.
  destruct (add_all_from_init 2 [a; b; c]) as [H _]; [lia |].
  rewrite H. reflexivity.
Qed.

(** C6, at capacity 0: the memory keeps the turn it was given, one more
    than its capacity, because the slice [messages[-0:]] is the whole
    list. *)
Lemma add_at_capacity_zero_keeps_the_turn :
  let m := Memory.add "user" "A" (Memory.init 0 true) in
  Memory.get_messages m = [Memory.mkMessage "user" "A"] /\
  Z.of_nat (List.length (Memory.get_messages m)) > Memory.max_items m.
Proof. cbn. split; [reflexivity | lia]. Qed.

(** At capacity 0 nothing is ever dropped. *)
Lemma add_all_capacity_zero (l : list Message) :
  forall ms : list Message,
    add_all l (mk ms 0 true) = mk (ms ++ l) 0 true.
Proof.
  induction l as [| x l IH]; intros ms.
  - cbn. rewrite app_nil_r. reflexivity.
  - cbn [add_all fold_left]. fold (add_all l (add (role x) (content x) (mk ms 0 true))).
    unfold add. cbn [enabled negb max_items messages].
    destruct (Z.of_nat (List.length (ms ++ [mkMessage (role x) (content x)])) >? 0) eqn:Hc.
    + rewrite slice_from_zero, IH, <- app_assoc. destruct x. reflexivity.
    + rewrite length_app in Hc. cbn in Hc. rewrite Z.gtb_ltb in Hc.
      apply Z.ltb_ge in Hc. lia.
Qed.

(** While no call enables it, a memory built disabled stays as built. *)
Lemma run_never_enabled (ops : list op) :
  forall m : t,
    enabled m = false -> messages m = [] ->
    forallb (fun o => negb (enables o)) ops = true ->
    enabled (run ops m) = false /\ messages (run ops m) = [].
Proof.
  induction ops as [| o ops IH]; intros m He Hm Hops.
  - cbn. auto.
  - cbn in Hops. apply andb_prop in Hops. destruct Hops as [Ho Hops].
    cbn [run fold_left]. fold (run ops (step o m)).
    apply IH; try assumption.
    + destruct o as [r c | | b]; cbn.
      * rewrite add_disabled; assumption.
      * assumption.
      * destruct b; [discriminate | reflexivity].
    + destruct o as [r c | | b]; cbn.
      * rewrite add_disabled; assumption.
      * reflexivity.
      * assumption.
Qed.

(** C7, as the code has it: a memory switched off after a turn was stored
    still returns the turn. *)
Lemma get_messages_after_disabling :
  let m := Memory.set_enabled false (Memory.add "user" "A" (Memory.init 10 true)) in
  Memory.is_enabled m = false /\
  Memory.get_messages m = [Memory.mkMessage "user" "A"].
Proof. cbn. split; reflexivity. Qed.

(** C7, amended: [get_messages] returns what is stored whatever the flag
    says, so switching the memory off changes nothing it returns; it
    returns the empty sequence for a memory that was built disabled and
    never enabled since. *)
Theorem get_messages_disabled (N : Z) (ops : list Memory.op) (m : Memory.t) :
  forallb (fun o => negb (Memory.enables o)) ops = true ->
  Memory.get_messages (Memory.run ops (Memory.init N false)) = [] /\
  Memory.is_enabled (Memory.run ops (Memory.init N false)) = false /\
  Memory.get_messages (Memory.set_enabled false m) = Memory.get_messages m.
Proof.
  intros Hops.
  destruct (run_never_enabled ops (init N false)) as [He Hm]; try reflexivity; try assumption.
  unfold get_messages, is_enabled. rewrite He, Hm. cbn. auto.
Qed.

(** A memory built disabled, then added to, cleared, disabled again and
    added to. *)
Lemma get_messages_disabled_witness :
  forallb (fun o => negb (Memory.enables o))
    [Memory.Add "user" "A"; Memory.Clear; Memory.SetEnabled false; Memory.Add "user" "B"] = true /\
  Memory.get_messages
    (Memory.run [Memory.Add "user" "A"; Memory.Clear; Memory.SetEnabled false; Memory.Add "user" "B"]
       (Memory.init 10 false)) = [].
Proof.
  split; [reflexivity |].
  apply (get_messages_disabled 10
           [Memory.Add "user" "A"; Memory.Clear; Memory.SetEnabled false; Memory.Add "user" "B"]
           (Memory.init 10 true)).
  reflexivity.
Defined.

End MemoryFacts.

(** ** Text and the two patterns *)

Module TextFacts.

Local Arguments Ascii.eqb : simpl never.

Lemma append_assoc (a b c : string) : (a ++ b) ++ c = a ++ b ++ c.
Proof. induction a as [| x a IH]; cbn; [reflexivity | rewrite IH; reflexivity]. Qed.

Lemma strip_prefix_app (p s : string) : strip_prefix p (p ++ s) = Some s.
Proof.
  induction p as [| a p IH]; cbn; [reflexivity |].
  rewrite Ascii.eqb_refl. exact IH.
Qed.

Lemma lstrip_nonspace (c : ascii) (s : string) :
  isspace c = false -> lstrip (String c s) = String c s.
Proof. intros H. cbn. rewrite H. reflexivity. Qed.

Lemma lstrip_all_space (ws s : string) :
  all_space ws = true -> lstrip (ws ++ s) = lstrip s.
Proof.
  induction ws as [| a ws IH]; cbn; intros H; [reflexivity |].
  apply andb_prop in H. destruct H as [Ha Hws].
  rewrite Ha. apply IH. exact Hws.
Qed.

(** A text that ends with a closing brace is not empty. *)
Lemma ends_with_char_cons (c a : ascii) (s : string) :
  ends_with_char c (String a s) = true ->
  (s = EmptyString /\ a = c) \/ (s <> EmptyString /\ ends_with_char c s = true).
Proof.
  destruct s as [| b s]; cbn; intros H.
  - left. split; [reflexivity |]. apply Ascii.eqb_eq. exact H.
  - right. split; [discriminate | exact H].
Qed.

(** A run of backquotes is a prefix of [b ++ rest] only if it is one of
    [b], when [b] ends with a closing brace. *)
Lemma starts_with_cons (a c : ascii) (p s : string) :
  starts_with (String a p) (String c s) = Ascii.eqb a c && starts_with p s.
Proof. unfold starts_with. cbn. destruct (Ascii.eqb a c); reflexivity. Qed.

Lemma starts_with_app (p s : string) : starts_with p (p ++ s) = true.
Proof. unfold starts_with. rewrite strip_prefix_app. reflexivity. Qed.

Lemma prefix_backquotes_app (p : string) :
  forall b rest : string,
    has_char rbrace p = false ->
    ends_with_char rbrace b = true ->
    starts_with p (b ++ rest) = starts_with p b.
Proof.
  induction p as [| a p IH]; intros b rest Hp Hb;
    (destruct b as [| c b]; [discriminate |]); [reflexivity |].
  cbn in Hp. apply orb_false_elim in Hp. destruct Hp as [Ha Hp].
  cbn [append]. rewrite !starts_with_cons.
  destruct (Ascii.eqb a c) eqn:E; [| reflexivity]. cbn [andb].
  apply Ascii.eqb_eq in E. subst c.
  destruct (ends_with_char_cons _ _ _ Hb) as [[_ E] | [_ Hb']].
  - subst a. rewrite Ascii.eqb_refl in Ha. discriminate.
  - apply IH; assumption.
Qed.

Lemma lstrip_app_ends_rbrace (b rest : string) :
  ends_with_char rbrace b = true ->
  starts_with fence (lstrip (b ++ rest)) = starts_with fence (lstrip b).
Proof.
  induction b as [| c b IH]; intros Hb; [discriminate |].
  cbn [append lstrip]. destruct (isspace c) eqn:Hc.
  - destruct (ends_with_char_cons _ _ _ Hb) as [[_ E] | [_ Hb']].
    + subst c. discriminate.
    + apply IH. exact Hb'.
  - apply (prefix_backquotes_app fence (String c b) rest); [reflexivity | exact Hb].
Qed.

(** The lazy star of the fenced pattern stops exactly at the end of a body
    that has no clash inside and is followed by whitespace and a fence. *)
Lemma lazy_body_exact (body : string) :
  forall rest : string,
    ends_with_char rbrace body = true ->
    fence_clash body = false ->
    starts_with fence (lstrip rest) = true ->
    lazy_body (body ++ rest) = Some body.
Proof.
  induction body as [| c body IH]; intros rest Hend Hclash Hrest; [discriminate |].
  cbn [append lazy_body]. cbn in Hclash. apply orb_false_elim in Hclash.
  destruct Hclash as [Hc Hclash].
  destruct (ends_with_char_cons _ _ _ Hend) as [[-> ->] | [_ Hend']].
  - cbn [append]. rewrite Hrest. reflexivity.
  - rewrite (lstrip_app_ends_rbrace body rest Hend'), Hc.
    rewrite (IH rest Hend' Hclash Hrest). reflexivity.
Qed.

Lemma match_fenced_at_no_backquote (c : ascii) (s : string) :
  Ascii.eqb c backquote = false -> match_fenced_at (String c s) = None.
Proof.
  intros H. unfold match_fenced_at. cbn.
  change "`"%char with backquote.
  rewrite Ascii.eqb_sym, H. reflexivity.
Qed.

(** Text without a backquote before a block does not move the search. *)
Lemma search_fenced_skip (pre s : string) :
  has_char backquote pre = false -> search_fenced (pre ++ s) = search_fenced s.
Proof.
  induction pre as [| c pre IH]; intros H; [reflexivity |].
  cbn in H. apply orb_false_elim in H. destruct H as [Hc Hpre].
  cbn [append]. 
  change (search_fenced (String c (pre ++ s))) with
    (match match_fenced_at (String c (pre ++ s)) with
     | Some g => Some g
     | None => search_fenced (pre ++ s)
     end).
  rewrite (match_fenced_at_no_backquote c _ Hc). apply IH. exact Hpre.
Qed.

Lemma strip_prefix_json_none (ws t : string) :
  all_space ws = true -> strip_prefix "json" (ws ++ String lbrace t) = None.
Proof.
  intros Hws. destruct ws as [| a ws].
  - reflexivity.
  - cbn in Hws. apply andb_prop in Hws. destruct Hws as [Ha _].
    cbn. destruct (Ascii.eqb "j" a) eqn:E; [| reflexivity].
    apply Ascii.eqb_eq in E. subst a. discriminate.
Qed.

(** The fenced pattern, matched at a block, captures the text of the block. *)
Lemma match_fenced_at_block (label : bool) (ws1 body ws2 post : string) :
  all_space ws1 = true -> all_space ws2 = true ->
  ends_with_char rbrace body = true ->
  fence_clash body = false ->
  match_fenced_at (fenced label ws1 (String lbrace body) ws2 ++ post)
  = Some (String lbrace body).
Proof.
  intros H1 H2 Hend Hclash. unfold fenced, match_fenced_at.
  rewrite !append_assoc. rewrite strip_prefix_app. cbn [append].
  assert (Hbody :
    lstrip (ws1 ++ String lbrace (body ++ ws2 ++ fence ++ post))
    = String lbrace (body ++ ws2 ++ fence ++ post)).
  { rewrite lstrip_all_space by exact H1. reflexivity. }
  assert (Hlazy : lazy_body (body ++ ws2 ++ fence ++ post) = Some body).
  { apply lazy_body_exact; try assumption.
    rewrite lstrip_all_space by exact H2. apply (starts_with_app fence post). }
  destruct label.
  - rewrite (strip_prefix_app "json"), Hbody.
    rewrite Ascii.eqb_refl, Hlazy. reflexivity.
  - cbn [append]. rewrite (strip_prefix_json_none ws1 _ H1), Hbody.
    rewrite Ascii.eqb_refl, Hlazy. reflexivity.
Qed.

(** The search finds the first block after text that has no backquote. *)
Lemma search_fenced_block (pre : string) (label : bool) (ws1 body ws2 post : string) :
  has_char backquote pre = false ->
  all_space ws1 = true -> all_space ws2 = true ->
  ends_with_char rbrace body = true ->
  fence_clash body = false ->
  search_fenced (pre ++ fenced label ws1 (String lbrace body) ws2 ++ post)
  = Some (String lbrace body).
Proof.
  intros Hpre H1 H2 Hend Hclash.
  rewrite search_fenced_skip by exact Hpre.
  destruct (fenced label ws1 (String lbrace body) ws2 ++ post) as [| c s] eqn:E.
  - discriminate.
  - rewrite <- E. 
    assert (M := match_fenced_at_block label ws1 body ws2 post H1 H2 Hend Hclash).
    rewrite E in *. cbn [search_fenced]. rewrite M. reflexivity.
Qed.

(** A character of a suffix, of a stripped text, is one of the text. *)
Lemma has_char_strip_prefix (c : ascii) (p : string) :
  forall s r : string,
    strip_prefix p s = Some r -> has_char c r = true -> has_char c s = true.
Proof.
  induction p as [| a p IH]; intros s r H Hr.
  - cbn in H. destruct s; injection H as <-; exact Hr.
  - destruct s as [| b s]; [discriminate |]. cbn in H.
    destruct (Ascii.eqb a b); [| discriminate].
    cbn. rewrite (IH s r H Hr). apply orb_true_r.
Qed.

Lemma has_char_lstrip (c : ascii) (s : string) :
  has_char c (lstrip s) = true -> has_char c s = true.
Proof.
  induction s as [| a s IH]; cbn; intros H; [exact H |].
  destruct (isspace a).
  - rewrite (IH H). apply orb_true_r.
  - exact H.
Qed.

Lemma has_char_rstrip (c : ascii) (s : string) :
  has_char c (rstrip s) = true -> has_char c s = true.
Proof.
  induction s as [| a s IH]; cbn; intros H; [exact H |].
  destruct (rstrip s) as [| b r] eqn:E.
  - destruct (isspace a); [discriminate |].
    cbn in H. rewrite orb_false_r in H. rewrite H. reflexivity.
  - cbn in H. apply orb_prop in H. destruct H as [H | H].
    + rewrite H. reflexivity.
    + rewrite IH; [apply orb_true_r | exact H].
Qed.

Lemma has_char_strip (c : ascii) (s : string) :
  has_char c (strip s) = true -> has_char c s = true.
Proof. intros H. apply has_char_lstrip, has_char_rstrip, H. Qed.

(** Every match of the two patterns opens with a brace of the text. *)
Lemma match_fenced_at_has_lbrace (s g : string) :
  match_fenced_at s = Some g -> has_char lbrace s = true.
Proof.
  unfold match_fenced_at. intros H.
  destruct (strip_prefix fence s) as [s1 |] eqn:E1; [| discriminate].
  apply (has_char_strip_prefix lbrace fence s s1 E1).
  assert (H2 : has_char lbrace
                 (match strip_prefix "json" s1 with Some r => r | None => s1 end) = true).
  { apply has_char_lstrip.
    destruct (lstrip _) as [| c body]; [discriminate |].
    destruct (Ascii.eqb c lbrace) eqn:Ec; [| discriminate].
    cbn. rewrite Ec. reflexivity. }
  destruct (strip_prefix "json" s1) as [r |] eqn:E2; [| exact H2].
  apply (has_char_strip_prefix lbrace "json" s1 r E2 H2).
Qed.

Lemma search_fenced_no_lbrace (s : string) :
  has_char lbrace s = false -> search_fenced s = None.
Proof.
  induction s as [| c s IH]; intros H.
  - reflexivity.
  - cbn [search_fenced].
    destruct (match_fenced_at (String c s)) as [g |] eqn:E.
    + apply match_fenced_at_has_lbrace in E. congruence.
    + apply IH. cbn in H. apply orb_false_elim in H. apply H.
Qed.

Lemma match_bare_has_lbrace (s g : string) :
  match_bare s = Some g -> has_char lbrace s = true.
Proof.
  destruct s as [| c s]; [discriminate |]. cbn [match_bare has_char].
  destruct (Ascii.eqb c lbrace); [reflexivity | discriminate].
Qed.

(** A text with no opening brace in it matches neither pattern. *)
Lemma json_match_no_lbrace (s : string) :
  has_char lbrace s = false -> json_match s = None.
Proof.
  intros H. unfold json_match. rewrite (search_fenced_no_lbrace s H).
  destruct (match_bare (strip s)) as [g |] eqn:E; [| reflexivity].
  apply match_bare_has_lbrace, has_char_strip in E. congruence.
Qed.

End TextFacts.

Module ExtractFacts.

Import TextFacts.

Section WithRuntime.

Variable rt : Runtime.

(** What [extract_tool_call] returns when it returns a call: the value
    parsed out of the matched text, holding both keys. *)
Lemma extract_tool_call_some (response : string) (v : value) :
  extract_tool_call rt response = Some v <->
  exists text : string,
    json_match response = Some text /\
    json_loads rt text = inr v /\
    py_in "tool" v = inr true /\
    py_in "parameters" v = inr true.
Proof.
  unfold extract_tool_call, extract_tool_call_body. split.
  - intros H. destruct (json_match response) as [text |]; [| discriminate].
    exists text. split; [reflexivity |].
    destruct (json_loads rt text) as [e | tool_call]; [discriminate |]. cbn [ebind] in H.
    destruct (py_in "tool" tool_call) as [e | [|]] eqn:E1; cbn [ebind] in H; try discriminate.
    destruct (py_in "parameters" tool_call) as [e | [|]] eqn:E2; cbn [ebind] in H;
      try discriminate.
    injection H as <-. auto.
  - intros (text & -> & -> & H1 & H2). cbn [ebind]. rewrite H1. cbn [ebind]. rewrite H2.
    reflexivity.
Qed.

Lemma extract_tool_call_object (response text : string) (d : list (string * value)) :
  json_match response = Some text ->
  json_loads rt text = inr (VDict d) ->
  extract_tool_call rt response =
  match assoc "tool" d, assoc "parameters" d with
  | Some _, Some _ => Some (VDict d)
  | _, _ => None
  end.
Proof.
  intros Hm Hl. unfold extract_tool_call, extract_tool_call_body.
  rewrite Hm, Hl. cbn [ebind py_in].
  destruct (assoc "tool" d); [| reflexivity].
  destruct (assoc "parameters" d); reflexivity.
Qed.

End WithRuntime.

(** C4: [extract_tool_call] is a total function into an optional value,
    and it yields none when no pattern matches (as for prose with no brace
    in it), when the matched text is not JSON, and when the matched text is
    a JSON object that lacks the tool key or the parameters key. *)
Theorem extract_tool_call_none (rt : Runtime) (response : string) :
  (json_match response = None -> extract_tool_call rt response = None) /\
  (has_char lbrace response = false -> extract_tool_call rt response = None) /\
  (forall (text : string) (e : exn),
      json_match response = Some text -> json_loads rt text = inl e ->
      extract_tool_call rt response = None) /\
  (forall (text : string) (d : list (string * value)),
      json_match response = Some text -> json_loads rt text = inr (VDict d) ->
      assoc "tool" d = None \/ assoc "parameters" d = None ->
      extract_tool_call rt response = None).
Proof.
  assert (Hnone : json_match response = None -> extract_tool_call rt response = None).
  { intros H. unfold extract_tool_call, extract_tool_call_body. rewrite H. reflexivity. }
  split; [exact Hnone |]. split; [| split].
  - intros H. apply Hnone, json_match_no_lbrace, H.
  - intros text e Hm Hl. unfold extract_tool_call, extract_tool_call_body.
    rewrite Hm, Hl. reflexivity.
  - intros text d Hm Hl Hk. rewrite (extract_tool_call_object rt response text d Hm Hl).
    destruct Hk as [-> | ->]; [reflexivity |].
    destruct (assoc "tool" d); reflexivity.
Qed.

(** Prose, text between braces that is not JSON, and an object with the
    tool key only, bare and fenced. *)
Lemma extract_tool_call_none_witness :
  extract_tool_call Ref.rt0 "Hello, how can I help?" = None /\
  extract_tool_call Ref.rt0 "{not json}" = None /\
  extract_tool_call Ref.rt0 Ref.only_tool = None /\
  extract_tool_call Ref.rt0 (fenced true nl Ref.only_tool nl) = None.
Proof.
  split; [| split; [| split]].
  - apply (extract_tool_call_none Ref.rt0 "Hello, how can I help?"). reflexivity.
  - apply (extract_tool_call_none Ref.rt0 "{not json}") with
      (text := "{not json}") (e := mkExn JSONDecodeError "Expecting value"); reflexivity.
  - apply (extract_tool_call_none Ref.rt0 Ref.only_tool) with
      (text := Ref.only_tool) (d := [("tool", VStr "t")]); [reflexivity | reflexivity |].
    right. reflexivity.
  - apply (extract_tool_call_none Ref.rt0 (fenced true nl Ref.only_tool nl)) with
      (text := Ref.only_tool) (d := [("tool", VStr "t")]); [reflexivity | reflexivity |].
    right. reflexivity.
Defined.

(** C3, as the code has it: the action whose parameter holds a closing
    brace followed by a fence serializes to JSON that [json.loads] reads
    back, yet extraction from the fenced block yields none: the lazy
    pattern stops inside the string. *)
Lemma extract_fenced_clash :
  let a := action "t" [("a", VStr ("}" ++ fence))] in
  json_dumps Ref.rt0 a = inr (Ref.dumps a) /\
  json_loads Ref.rt0 (Ref.dumps a) = inr a /\
  json_match (fenced true nl (Ref.dumps a) nl)
  = Some ("{" ++ quoted "tool" ++ ": " ++ quoted "t" ++ ", " ++ quoted "parameters"
          ++ ": {" ++ quoted "a" ++ ": " ++ dq ++ "}") /\
  extract_tool_call Ref.rt0 (fenced true nl (Ref.dumps a) nl) = None.
Proof. cbv zeta. repeat split; vm_compute; reflexivity. Qed.

(** C3, amended: extraction from a fenced block (with or without the label,
    after text with no backquote, before any text) returns the action whose
    serialization the block holds, when the serialization reads back as the
    action, is delimited by braces, and has no closing brace followed by
    optional whitespace and a fence inside it. *)
Theorem extract_fenced_round_trip (rt : Runtime)
    (tool : string) (parameters : list (string * value))
    (body pre ws1 ws2 post : string) (label : bool) :
  json_dumps rt (action tool parameters) = inr (String lbrace body) ->
  json_loads rt (String lbrace body) = inr (action tool parameters) ->
  ends_with_char rbrace body = true ->
  fence_clash body = false ->
  has_char backquote pre = false ->
  all_space ws1 = true ->
  all_space ws2 = true ->
  extract_tool_call rt (pre ++ fenced label ws1 (String lbrace body) ws2 ++ post)
  = Some (action tool parameters).
Proof.
  intros _ Hloads Hend Hclash Hpre H1 H2.
  assert (Hm : json_match (pre ++ fenced label ws1 (String lbrace body) ws2 ++ post)
               = Some (String lbrace body)).
  { unfold json_match. rewrite search_fenced_block by assumption. reflexivity. }
  rewrite (extract_tool_call_object rt _ _ _ Hm Hloads). reflexivity.
Qed.

(** A sentence, then the labelled block with the action of the
    specification. *)
Lemma extract_fenced_round_trip_witness :
  extract_tool_call Ref.rt0
    ("I will use the calculator." ++ nl
     ++ fenced true nl (Ref.dumps (action "t" [("a", VInt 1)])) nl ++ nl)
  = Some (action "t" [("a", VInt 1)]).
Proof.
  apply (extract_fenced_round_trip Ref.rt0 "t" [("a", VInt 1)]
           (quoted "tool" ++ ": " ++ quoted "t" ++ ", " ++ quoted "parameters"
            ++ ": {" ++ quoted "a" ++ ": 1}}")
           ("I will use the calculator." ++ nl) nl nl nl true); reflexivity.
Defined.

End ExtractFacts.

(** ** Providers *)

Module ProviderFacts.

Local Open Scope list_scope.

(** Once a message was emitted, the loop maps message by message and
    leaves the system field alone. *)
Lemma claude_loop_started (messages : list Memory.Message) :
  forall (system_prompt : string) (x : Memory.Message) (acc : list Memory.Message),
    claude_loop messages system_prompt (x :: acc)
    = (system_prompt, (x :: acc) ++ flat_map spec_claude_message messages).
Proof.
  induction messages as [| msg rest IH]; intros system_prompt x acc.
  - cbn. rewrite app_nil_r. reflexivity.
  - cbn [claude_loop flat_map]. unfold spec_claude_message.
    destruct (String.eqb (Memory.role msg) "system").
    + cbn [app]. rewrite IH. cbn [app]. rewrite <- app_assoc. reflexivity.
    + destruct (String.eqb (Memory.role msg) "user").
      * cbn [app]. rewrite IH. cbn [app]. rewrite <- app_assoc. reflexivity.
      * destruct (String.eqb (Memory.role msg) "assistant").
        -- cbn [app]. rewrite IH. cbn [app]. rewrite <- app_assoc. reflexivity.
        -- rewrite IH. reflexivity.
Qed.

(** From the start, on a list that opens with a user or assistant turn. *)
Lemma claude_loop_turn_first (messages : list Memory.Message) (system_prompt : string) :
  opens_with_turn messages = true ->
  claude_loop messages system_prompt [] = (system_prompt, flat_map spec_claude_message messages).
Proof.
  destruct messages as [| msg rest]; intros H; [reflexivity |].
  cbn [opens_with_turn] in H. cbn [claude_loop flat_map]. unfold spec_claude_message.
  destruct (String.eqb (Memory.role msg) "system") eqn:Es.
  - apply String.eqb_eq in Es. rewrite Es in H. discriminate.
  - destruct (String.eqb (Memory.role msg) "user").
    + cbn [app]. rewrite claude_loop_started. reflexivity.
    + cbn [orb] in H. rewrite H. cbn [app]. rewrite claude_loop_started. reflexivity.
Qed.

(** C8, as the code has it: a system message met after a user message,
    the first system message of the list, does not reach the system
    field, which stays empty. *)
Lemma claude_request_late_system :
  claude_request [Memory.mkMessage "user" "hi"; Memory.mkMessage "system" "S"]
  = (EmptyString,
     [Memory.mkMessage "user" "hi"; Memory.mkMessage "assistant" "System message: S"]).
Proof. reflexivity. Qed.

(** Two system messages at the head of the list: the second takes the
    system field and the first is lost. *)
Example claude_request_two_leading_systems :
  claude_request [Memory.mkMessage "system" "A"; Memory.mkMessage "system" "B";
                  Memory.mkMessage "user" "hi"]
  = ("B", [Memory.mkMessage "user" "hi"]).
Proof. reflexivity. Qed.

(** C8, amended: when the message list opens with a system message that a
    user or assistant message follows (or nothing), the system field is the
    content of that message; every system message after it appears as an
    assistant message with the prefix, and user and assistant messages pass
    through with role and content, all in order.  Without the opening
    system message the system field is empty and the same mapping applies. *)
Theorem claude_request_mapping (c0 : string) (rest : list Memory.Message) :
  opens_with_turn rest = true ->
  claude_request (Memory.mkMessage "system" c0 :: rest) = (c0, flat_map spec_claude_message rest) /\
  claude_request rest = (EmptyString, flat_map spec_claude_message rest).
Proof.
  intros H. unfold claude_request. split.
  - cbn [claude_loop Memory.role Memory.content]. cbn [String.eqb].
    change (String.eqb "system" "system") with true. cbn iota.
    apply claude_loop_turn_first, H.
  - apply claude_loop_turn_first, H.
Qed.

(** The list of a second call: the prompt, the query, the decision, the
    tool result. *)
Lemma claude_request_mapping_witness :
  claude_request
    [Memory.mkMessage "system" "You are A."; Memory.mkMessage "user" "q";
     Memory.mkMessage "assistant" "{}"; Memory.mkMessage "system" "Tool result: 4"]
  = ("You are A.",
     [Memory.mkMessage "user" "q"; Memory.mkMessage "assistant" "{}";
      Memory.mkMessage "assistant" "System message: Tool result: 4"]).
Proof.
  apply (claude_request_mapping "You are A."
           [Memory.mkMessage "user" "q"; Memory.mkMessage "assistant" "{}";
            Memory.mkMessage "system" "Tool result: 4"]).
  reflexivity.
Defined.

(** The list of a first call opens with the system prompt, and a user or
    assistant turn follows it when the memory opens with one. *)
Lemma first_messages_opens_with_turn (system_prompt : string) (m : Memory.t) (query : string) :
  opens_with_turn (Memory.messages m) = true ->
  exists rest : list Memory.Message,
    first_messages system_prompt m query = Memory.mkMessage "system" system_prompt :: rest /\
    opens_with_turn rest = true.
Proof.
  intros H. unfold first_messages, Memory.is_enabled, Memory.get_messages.
  destruct (Memory.enabled m).
  - exists (Memory.messages m ++ [Memory.mkMessage "user" query]). split; [reflexivity |].
    destruct (Memory.messages m); [reflexivity | exact H].
  - exists [Memory.mkMessage "user" query]. split; reflexivity.
Qed.

Section WithRuntime.

Variable rt : Runtime.




End WithRuntime.

End ProviderFacts.

(** ** Dispatch and the system prompt *)

Module DispatchFacts.

Section WithRuntime.

Variable rt : Runtime.
Variable a : Agent rt.

(** An unregistered name is answered with the not-found text. *)
Lemma _execute_tool_not_found (tool_name parameters : value) (w : World rt) :
  hashable tool_name = true ->
  registry_find tool_name (tools a) = None ->
  _execute_tool rt a tool_name parameters w
  = (inr (VStr ("Error: Tool '" ++ py_str (repr rt) tool_name ++ "' not found")), w).
Proof.
  intros Hh Hf. unfold _execute_tool, registry_lookup, bind, lift, ret.
  rewrite Hh, Hf. reflexivity.
Qed.

(** A descriptor with no function path is answered with the
    misconfiguration text. *)
Lemma _execute_tool_no_path (tool_name parameters : value) (d : list (string * value))
    (w : World rt) :
  hashable tool_name = true ->
  registry_find tool_name (tools a) = Some (VDict d) ->
  truthy (match assoc "function" d with Some x => x | None => VNone end) = false ->
  _execute_tool rt a tool_name parameters w
  = (inr (VStr ("Error: Function path not defined for tool '"
                ++ py_str (repr rt) tool_name ++ "'")), w).
Proof.
  intros Hh Hf Ht. unfold _execute_tool, registry_lookup, bind, lift, ret.
  rewrite Hh, Hf. cbn [py_get]. rewrite Ht. reflexivity.
Qed.

(** A tool that is found, loads and returns: its value comes back as it is. *)
Lemma _execute_tool_success (tool_name parameters : value) (d p : list (string * value))
    (path module_name function_name : string) (m : pymodule (World rt))
    (f : callable (World rt)) (result : value) (w w1 w2 : World rt) :
  hashable tool_name = true ->
  registry_find tool_name (tools a) = Some (VDict d) ->
  assoc "function" d = Some (VStr path) ->
  path <> EmptyString ->
  rsplit_dot path = Some (module_name, function_name) ->
  import_module rt module_name w = (inr m, w1) ->
  m function_name = Some f ->
  parameters = VDict p ->
  f parameters w1 = (inr result, w2) ->
  _execute_tool rt a tool_name parameters w = (inr result, w2).
Proof.
  intros Hh Hf Hp Hne Hs Hi Hm -> Hc.
  unfold _execute_tool, registry_lookup, bind, lift, ret, try_except.
  rewrite Hh, Hf. cbn [py_get]. rewrite Hp. cbn [truthy].
  destruct (String.eqb path EmptyString) eqn:E.
  - apply String.eqb_eq in E. contradiction.
  - cbn [negb split_function_path]. rewrite Hs. cbn [fst snd]. rewrite Hi.
    unfold getattr. rewrite Hm. cbn [call_with]. rewrite Hc. reflexivity.
Qed.

(** X10: a tool that is found and loads, and raises while it runs: the
    class of the exception alone decides which of the two texts comes back. *)
Lemma _execute_tool_call_raises (tool_name parameters : value) (d p : list (string * value))
    (path module_name function_name : string) (m : pymodule (World rt))
    (f : callable (World rt)) (e : exn) (w w1 w2 : World rt) :
  hashable tool_name = true ->
  registry_find tool_name (tools a) = Some (VDict d) ->
  assoc "function" d = Some (VStr path) ->
  path <> EmptyString ->
  rsplit_dot path = Some (module_name, function_name) ->
  import_module rt module_name w = (inr m, w1) ->
  m function_name = Some f ->
  parameters = VDict p ->
  f parameters w1 = (inl e, w2) ->
  _execute_tool rt a tool_name parameters w
  = (inr (VStr ((if is_import_or_attribute_error e
                 then "Error loading tool function: "
                 else "Error executing tool: ") ++ exn_msg e)), w2).
Proof.
  intros Hh Hf Hp Hne Hs Hi Hm -> Hc.
  unfold _execute_tool, registry_lookup, bind, lift, ret, try_except.
  rewrite Hh, Hf. cbn [py_get]. rewrite Hp. cbn [truthy].
  destruct (String.eqb path EmptyString) eqn:E.
  - apply String.eqb_eq in E. contradiction.
  - cbn [negb split_function_path]. rewrite Hs. cbn [fst snd]. rewrite Hi.
    unfold getattr. rewrite Hm. cbn [call_with]. rewrite Hc.
    destruct (is_import_or_attribute_error e); reflexivity.
Qed.


End WithRuntime.

(** C5, at a tool that raises [AttributeError] while it runs: the answer
    carries the load-error text, not the execution-error text.  A tool
    whose path has no dot cannot be resolved and is answered with the
    execution-error text.  A tool that raises another exception, and the
    calculator, are answered as the claim says. *)
Lemma _execute_tool_misreports_the_phase :
  let a := Ref.agent0 (Ref.math_config None) Ref.faulty_tools in
  _execute_tool Ref.rt0 a (VStr "reader") (VDict []) 0%nat
  = (inr (VStr "Error loading tool function: 'NoneType' object has no attribute 'value'"),
     0%nat) /\
  _execute_tool Ref.rt0 a (VStr "bare") (VDict []) 0%nat
  = (inr (VStr "Error executing tool: not enough values to unpack (expected 2, got 1)"),
     0%nat) /\
  _execute_tool Ref.rt0 a (VStr "divider") (VDict []) 0%nat
  = (inr (VStr "Error executing tool: division by zero"), 0%nat) /\
  _execute_tool Ref.rt0 a (VStr "calculator") (VDict [("expression", VStr "2+2")]) 0%nat
  = (inr (VInt 4), 0%nat).
Proof. cbv zeta. repeat split; vm_compute; reflexivity. Qed.

End DispatchFacts.

Module PromptFacts.

Section WithRuntime.

Variable rt : Runtime.

(** The prompt, read off the [config] object. *)
Lemma _create_system_prompt_unfold (a : Agent rt) :
  _create_system_prompt rt a =
  match config_field a "backstory", config_field a "task",
        config_field a "prompt_template", config_field a "think" with
  | inr backstory, inr task, inr prompt_template, inr think =>
      ebind
        (if truthy prompt_template
         then format_template rt prompt_template (name a) backstory task
         else default_prompt rt (name a) backstory task think (tools a))
        (fun system_prompt => inr (system_prompt ++ tool_instructions))
  | inl e, _, _, _ => inl e
  | _, inl e, _, _ => inl e
  | _, _, inl e, _ => inl e
  | _, _, _, inl e => inl e
  end.
Proof.
  unfold _create_system_prompt, config_field.
  destruct (py_get (config a) "config" (VDict [])) as [e | config_data]; [reflexivity |].
  cbn [ebind].
  destruct config_data; try reflexivity.
Qed.

(** Reading one entry of the [config] object succeeds as soon as
    reading another does. *)
Lemma config_field_defined (a : Agent rt) (key key' : string) (v : value) :
  config_field a key = inr v -> exists v', config_field a key' = inr v'.
Proof.
  unfold config_field.
  destruct (py_get (config a) "config" (VDict [])) as [e | config_data]; [discriminate |].
  cbn [ebind]. destruct config_data; try discriminate. cbn [py_get]. eauto.
Qed.

End WithRuntime.

(** C10: a system prompt that is built ends with the fixed instruction
    block, on both paths; on the custom-template path it is the same for
    every agent with the same name, backstory, task and template, whatever
    the tools it has registered and whatever its think hint. *)
Theorem system_prompt_instructions (rt : Runtime) (a : Agent rt) (prompt : string) :
  _create_system_prompt rt a = inr prompt ->
  (exists body : string, prompt = body ++ tool_instructions) /\
  (uses_template a = true ->
   forall a' : Agent rt, same_persona a a' -> _create_system_prompt rt a' = inr prompt).
Proof.
  intros H. rewrite _create_system_prompt_unfold in H.
  destruct (config_field a "backstory") as [e | backstory] eqn:Eb; [discriminate |].
  destruct (config_field a "task") as [e | task] eqn:Et; [discriminate |].
  destruct (config_field a "prompt_template") as [e | template] eqn:Ep; [discriminate |].
  destruct (config_field a "think") as [e | think] eqn:Eh; [discriminate |].
  split.
  - destruct (if truthy template then _ else _) as [e | body]; [discriminate |].
    cbn [ebind] in H. injection H as <-. exists body. reflexivity.
  - intros Hu a' (Hn & Hb & Ht & Hp). unfold uses_template in Hu. rewrite Ep in Hu.
    rewrite Hu in H.
    rewrite _create_system_prompt_unfold, <- Hb, <- Ht, <- Hp, Eb, Et, Ep.
    rewrite Hp in Ep. destruct (config_field_defined rt a' _ "think" _ Ep) as [think' ->].
    rewrite Hu, <- Hn. exact H.
Qed.

(** The template agent with no tool and no hint, against one with four
    tools and a hint. *)
Lemma system_prompt_instructions_witness :
  _create_system_prompt Ref.rt0 (Ref.agent0 (Ref.template_config "Think twice.") Ref.faulty_tools)
  = inr ("You are MathAssistant. I like sums. Please add numbers." ++ tool_instructions).
Proof.
  apply (system_prompt_instructions Ref.rt0 (Ref.agent0 (Ref.template_config EmptyString) [])).
  - reflexivity.
  - reflexivity.
  - repeat split.
Defined.

(** The default template does list the tools and the think hint. *)
Example default_prompt_lists_tools :
  _create_system_prompt Ref.rt0
    (Ref.agent0 (Ref.math_config None) [(VStr "calculator", Ref.calculator_config)])
  = inr ("You are MathAssistant. I am a helpful assistant with math skills." ++ nl
         ++ "Your task is to help users solve mathematical problems." ++ nl ++ nl
         ++ "You have access to the following tools:" ++ nl
         ++ "- calculator: Evaluate a mathematical expression" ++ nl
         ++ tool_instructions).
Proof. reflexivity. Qed.

End PromptFacts.

(** ** The query turn *)

Module TurnFacts.

Section WithRuntime.

Variable rt : Runtime.
Variable a : Agent rt.

(** *** What a turn leaves alone *)

Lemma keeps_ret {A : Type} (x : A) : keeps_disabled rt (ret x).
Proof. intros s _. reflexivity. Qed.

Lemma keeps_lift {A : Type} (r : exn + A) : keeps_disabled rt (lift r).
Proof. intros s _. reflexivity. Qed.

Lemma keeps_get_memory : keeps_disabled rt get_memory.
Proof. intros s _. reflexivity. Qed.

Lemma keeps_memory_add (role content : string) : keeps_disabled rt (memory_add role content).
Proof. intros s H. cbn. apply MemoryFacts.add_disabled, H. Qed.

Lemma keeps_in_world {A : Type} (m : ST (World rt) A) : keeps_disabled rt (in_world m).
Proof. intros s _. unfold in_world. destruct (m (world s)). reflexivity. Qed.

Lemma keeps_llm_get_response (messages : list Memory.Message) (tools : option value) :
  keeps_disabled rt (llm_get_response a messages tools).
Proof.
  intros s _. unfold llm_get_response, in_world. cbn [world memory].
  destruct (get_response (llm a) messages tools (world s)). reflexivity.
Qed.

Lemma keeps_bind {A B : Type} (m : ST (State rt) A) (k : A -> ST (State rt) B) :
  keeps_disabled rt m -> (forall x, keeps_disabled rt (k x)) -> keeps_disabled rt (bind m k).
Proof.
  intros Hm Hk s H. unfold bind. specialize (Hm s H).
  destruct (m s) as [[e | x] s1]; cbn [snd] in *; [exact Hm |].
  rewrite <- Hm. apply Hk. rewrite Hm. exact H.
Qed.

Lemma keeps_try_except {A : Type} (m : ST (State rt) A) (h : exn -> ST (State rt) A) :
  keeps_disabled rt m -> (forall e, keeps_disabled rt (h e)) -> keeps_disabled rt (try_except m h).
Proof.
  intros Hm Hh s H. unfold try_except. specialize (Hm s H).
  destruct (m s) as [[e | x] s1]; cbn [snd] in *; [| exact Hm].
  rewrite <- Hm. apply Hh. rewrite Hm. exact H.
Qed.

Lemma keeps_process_query (query : string) : keeps_disabled rt (process_query rt a query).
Proof.
  unfold process_query, process_query_body, answer_with_tool, answer_plainly.
  apply keeps_try_except; [| intros; apply keeps_ret].
  repeat first
    [ apply keeps_ret | apply keeps_lift | apply keeps_get_memory | apply keeps_memory_add
    | apply keeps_in_world | apply keeps_llm_get_response
    | apply keeps_bind; [| intros ?]
    | match goal with
      | |- keeps_disabled rt (match ?x with _ => _ end) => destruct x
      | |- keeps_disabled rt (if ?x then _ else _) => destruct x
      end ].
Qed.

(** A session of queries leaves a disabled memory as it found it. *)
Lemma run_session_disabled (queries : list string) :
  forall s : State rt,
    Memory.enabled (memory s) = false ->
    memory (snd (run_session rt a queries s)) = memory s.
Proof.
  induction queries as [| q rest IH]; intros s H; [reflexivity |].
  cbn [run_session]. unfold run_agent.
  pose proof (keeps_process_query q s H) as Hq.
  destruct (process_query rt a q s) as [r s1]. cbn [snd] in Hq.
  specialize (IH s1). rewrite Hq in IH. specialize (IH H).
  destruct (run_session rt a rest s1) as [rs s2]. cbn [snd] in *. exact IH.
Qed.

(** *** The outermost handler *)


(** *** A turn with a tool call *)

(** Two adds on an enabled memory of positive capacity. *)
Lemma add_twice_enabled (m : Memory.t) (r1 c1 r2 c2 : string) :
  Memory.enabled m = true -> (1 <= Memory.max_items m)%Z ->
  Memory.messages (Memory.add r2 c2 (Memory.add r1 c1 m))
  = lastn (Z.to_nat (Memory.max_items m))
      (Memory.messages m ++ [Memory.mkMessage r1 c1; Memory.mkMessage r2 c2])%list.
Proof.
  intros He Hn. rewrite (MemoryFacts.add_enabled r1 c1 m He Hn).
  rewrite MemoryFacts.add_enabled by (cbn; first [reflexivity | assumption]).
  cbn [Memory.messages Memory.max_items].
  rewrite lastn_app_lastn, <- app_assoc. reflexivity.
Qed.

(** The turn, step by step, when extraction yields an action. *)
Lemma process_query_with_tool (query : string) (s : State rt)
    (system_prompt : string) (formatted : value) (tool_response : string) (w1 : World rt)
    (d : list (string * value)) (tool_name parameters tool_result : value) (w2 : World rt)
    (dumped final_response : string) (w3 : World rt) :
  let messages := first_messages system_prompt (memory s) query in
  let extended :=
    (messages ++ [decision_message dumped; tool_result_message rt tool_result])%list in
  _create_system_prompt rt a = inr system_prompt ->
  _format_tools_for_llm rt a = inr formatted ->
  get_response (llm a) messages (Some formatted) (world s) = (inr tool_response, w1) ->
  extract_tool_call rt tool_response = Some (VDict d) ->
  assoc "tool" d = Some tool_name ->
  assoc "parameters" d = Some parameters ->
  _execute_tool rt a tool_name parameters w1 = (inr tool_result, w2) ->
  json_dumps rt (VDict d) = inr dumped ->
  get_response (llm a) extended None w2 = (inr final_response, w3) ->
  process_query rt a query s
  = (inr final_response,
     mkState
       (Memory.add "assistant" final_response (Memory.add "user" query (memory s)))
       w3
       (calls s ++ [mkCall messages (Some formatted); mkCall extended None])%list).
Proof.
  intros messages extended Hp Hf H1 Hx Ht Hq Hd Hj H2.
  unfold process_query, try_except, process_query_body, bind, lift, get_memory, memory_add.
  rewrite Hp, Hf. fold messages.
  unfold llm_get_response at 1. unfold in_world at 1. cbn [world memory calls].
  rewrite H1, Hx.
  assert (Htruthy : truthy (VDict d) = true).
  { destruct d; [discriminate | reflexivity]. }
  rewrite Htruthy.
  unfold answer_with_tool, bind, lift, ret, memory_add.
  cbn [py_get]. rewrite Ht, Hq.
  unfold in_world at 1. cbn [world memory calls]. rewrite Hd, Hj.
  unfold llm_get_response, in_world. cbn [world memory calls].
  rewrite <- app_assoc. cbn [app]. fold extended. rewrite H2.
  rewrite <- app_assoc. reflexivity.
Qed.

(** The turn when extraction yields none: one backend call, whose reply is
    the answer and the second entry of the memory. *)
Lemma process_query_plain (query : string) (s : State rt)
    (system_prompt : string) (formatted : value) (tool_response : string) (w1 : World rt) :
  let messages := first_messages system_prompt (memory s) query in
  _create_system_prompt rt a = inr system_prompt ->
  _format_tools_for_llm rt a = inr formatted ->
  get_response (llm a) messages (Some formatted) (world s) = (inr tool_response, w1) ->
  extract_tool_call rt tool_response = None ->
  process_query rt a query s
  = (inr tool_response,
     mkState
       (Memory.add "assistant" tool_response (Memory.add "user" query (memory s)))
       w1
       (calls s ++ [mkCall messages (Some formatted)])%list).
Proof.
  intros messages Hp Hf H1 Hx.
  unfold process_query, try_except, process_query_body, bind, lift, get_memory, memory_add.
  rewrite Hp, Hf. fold messages.
  unfold llm_get_response, in_world. cbn [world memory calls].
  rewrite H1, Hx. reflexivity.
Qed.

End WithRuntime.

(** A configuration whose [config] entry is not an object: the turn fails
    before anything is recorded or sent. *)
Example broken_config_is_answered :
  let r := process_query Ref.rt0 (Ref.agent0 Ref.broken_config []) "hi" (Ref.state0 true) in
  fst r = inr "Error processing query: 'list' object has no attribute 'get'" /\
  Memory.get_messages (memory (snd r)) = [] /\
  calls (snd r) = [].
Proof. cbv zeta. repeat split; vm_compute; reflexivity. Qed.

(** A provider that raises: the turn fails after the query was recorded. *)
Example raising_provider_is_answered :
  let r := process_query Ref.rt0 Ref.base_agent "hi" (Ref.state0 true) in
  fst r = inr "Error processing query: Subclasses must implement format_tools" /\
  Memory.get_messages (memory (snd r)) = [Memory.mkMessage "user" "hi"] /\
  calls (snd r) = [].
Proof. cbv zeta. repeat split; vm_compute; reflexivity. Qed.

(** C1, amended: in a turn in which extraction yields an action, dispatch
    returns a result and the backend answers the second call, the
    serialized action (as an assistant message) and the prefixed dispatch
    result (as a system message) are appended to the outgoing list of the
    second call, which is made with no tools; the memory receives two adds,
    the user query and the second reply.  An enabled memory so gains these
    two entries (the oldest dropped beyond its capacity), a disabled one
    gains none; neither ever holds the serialized action or the tool
    result of the turn. *)
Theorem tool_turn (rt : Runtime) (a : Agent rt) (query : string) (s : State rt)
    (system_prompt : string) (formatted : value) (tool_response : string) (w1 : World rt)
    (d : list (string * value)) (tool_name parameters tool_result : value) (w2 : World rt)
    (dumped final_response : string) (w3 : World rt) :
  let messages := first_messages system_prompt (memory s) query in
  let extended :=
    (messages ++ [decision_message dumped; tool_result_message rt tool_result])%list in
  let s' := snd (process_query rt a query s) in
  _create_system_prompt rt a = inr system_prompt ->
  _format_tools_for_llm rt a = inr formatted ->
  get_response (llm a) messages (Some formatted) (world s) = (inr tool_response, w1) ->
  extract_tool_call rt tool_response = Some (VDict d) ->
  assoc "tool" d = Some tool_name ->
  assoc "parameters" d = Some parameters ->
  _execute_tool rt a tool_name parameters w1 = (inr tool_result, w2) ->
  json_dumps rt (VDict d) = inr dumped ->
  get_response (llm a) extended None w2 = (inr final_response, w3) ->
  fst (process_query rt a query s) = inr final_response /\
  calls s' = (calls s ++ [mkCall messages (Some formatted); mkCall extended None])%list /\
  memory s' = Memory.add "assistant" final_response (Memory.add "user" query (memory s)) /\
  (Memory.enabled (memory s) = true -> (1 <= Memory.max_items (memory s))%Z ->
   Memory.get_messages (memory s')
   = lastn (Z.to_nat (Memory.max_items (memory s)))
       (Memory.messages (memory s)
        ++ [Memory.mkMessage "user" query; Memory.mkMessage "assistant" final_response])%list) /\
  (Memory.enabled (memory s) = false -> memory s' = memory s).
Proof.
  intros messages extended s' Hp Hf H1 Hx Ht Hq Hd Hj H2.
  pose proof (process_query_with_tool rt a query s system_prompt formatted tool_response w1
                d tool_name parameters tool_result w2 dumped final_response w3
                Hp Hf H1 Hx Ht Hq Hd Hj H2) as E.
  subst s'. rewrite E. cbn [fst snd calls memory].
  split; [reflexivity |]. split; [reflexivity |]. split; [reflexivity |]. split.
  - intros He Hn. apply add_twice_enabled; assumption.
  - intros He. rewrite (MemoryFacts.add_disabled "user" query _ He).
    apply MemoryFacts.add_disabled, He.
Qed.

(** The calculator scenario, memory enabled. *)
Lemma tool_turn_witness :
  let s' := snd (process_query (Ref.math_rt (Some true)) (Ref.math_agent (Some true))
                   Ref.sum_query (Ref.math_state (Some true) true)) in
  fst (process_query (Ref.math_rt (Some true)) (Ref.math_agent (Some true))
         Ref.sum_query (Ref.math_state (Some true) true))
  = inr "The answer is 4." /\
  Memory.get_messages (memory s')
  = [Memory.mkMessage "user" "What is 2 + 2?"; Memory.mkMessage "assistant" "The answer is 4."].
Proof.
  cbv zeta.
  destruct (tool_turn (Ref.math_rt (Some true)) (Ref.math_agent (Some true))
              Ref.sum_query (Ref.math_state (Some true) true)
              (match _create_system_prompt (Ref.math_rt (Some true))
                       (Ref.math_agent (Some true)) with
               | inr p => p
               | inl _ => EmptyString
               end)
              (match _format_tools_for_llm (Ref.math_rt (Some true))
                       (Ref.math_agent (Some true)) with
               | inr f => f
               | inl _ => VNone
               end)
              (Ref.dumps Ref.sum_action) 1%nat
              [("tool", VStr "calculator"); ("parameters", VDict [("expression", VStr "2+2")])]
              (VStr "calculator") (VDict [("expression", VStr "2+2")]) (VInt 4) 1%nat
              (Ref.dumps Ref.sum_action) "The answer is 4." 2%nat)
    as (Hanswer & _ & _ & Hmem & _); try reflexivity.
  split; [exact Hanswer |].
  rewrite Hmem; [reflexivity | reflexivity | cbn; lia].
Defined.

(** C1, as the code has it: the same turn on an agent whose memory is
    disabled (its configuration has no memory flag) ends with the same
    answer and a memory that gained no entry. *)
Lemma tool_turn_with_memory_disabled :
  let r := process_query (Ref.math_rt None) (Ref.math_agent None)
             Ref.sum_query (Ref.math_state None false) in
  extract_tool_call (Ref.math_rt None) (Ref.dumps Ref.sum_action) = Some Ref.sum_action /\
  fst r = inr "The answer is 4." /\
  List.length (calls (snd r)) = 2%nat /\
  Memory.get_messages (memory (snd r)) = [].
Proof. cbv zeta. repeat split; vm_compute; reflexivity. Qed.

(** The agent of the scenario is the one [Agent_init] builds. *)
Example Agent_init_math (flag : option bool) :
  Agent_init (Ref.math_rt flag) "agent_config.json" "openai" 0%nat
  = (inr (Ref.math_agent flag,
          Memory.init 10 (match flag with Some b => b | None => false end)), 0%nat).
Proof. destruct flag as [[|] |]; reflexivity. Qed.

Section Construction.

Variable rt : Runtime.

(** What [Agent_init] returns: the memory has capacity 10 and the flag
    read off the configuration the agent keeps. *)
Lemma Agent_init_memory (config_path provider : string) (w w' : World rt)
    (a : Agent rt) (m : Memory.t) :
  Agent_init rt config_path provider w = (inr (a, m), w') ->
  exists config_data flag : value,
    py_get (config a) "config" (VDict []) = inr config_data /\
    py_get config_data "memory" (VBool false) = inr flag /\
    m = Memory.init 10 (truthy flag).
Proof.
  unfold Agent_init, bind, lift, ret. intros H.
  destruct (_load_config rt config_path w) as [[e | cfg] w0]; [discriminate |].
  destruct (py_get cfg "agent_name" (VStr "Assistant")) as [e | nm]; [discriminate |].
  destruct (py_get cfg "config" (VDict [])) as [e | cd] eqn:Ecd; [discriminate |].
  destruct (py_get cd "tools" (VList [])) as [e | tn]; [discriminate |].
  destruct (_load_tools rt tn w0) as [[e | tl] w1]; [discriminate |].
  destruct (py_get cd "memory" (VBool false)) as [e | flag] eqn:Ef; [discriminate |].
  destruct (get_llm_provider rt provider) as [e | l]; [discriminate |].
  injection H as <- <- <-. exists cd, flag. cbn [config]. auto.
Qed.

End Construction.

(** C9: an agent built from a configuration without the memory flag has
    a disabled memory of capacity 10, and no session of queries records
    anything in it. *)
Theorem agent_without_memory_flag (rt : Runtime) (config_path provider : string)
    (w w' : World rt) (a : Agent rt) (m : Memory.t) :
  Agent_init rt config_path provider w = (inr (a, m), w') ->
  omits_memory_flag (config a) = true ->
  m = Memory.init 10 false /\
  forall (queries : list string) (wq : World rt) (cs : list Call),
    memory (snd (run_session rt a queries (mkState m wq cs))) = Memory.init 10 false.
Proof.
  intros Hinit Homit.
  destruct (Agent_init_memory rt _ _ _ _ _ _ Hinit) as (cd & flag & Hcd & Hflag & ->).
  assert (Hf : truthy flag = false).
  { unfold omits_memory_flag in Homit. destruct (config a) as [| | | | | dd]; try discriminate.
    cbn [py_get] in Hcd. destruct (assoc "config" dd) as [x |].
    - destruct x as [| | | | | cfgd]; try discriminate. injection Hcd as <-.
      cbn [py_get] in Hflag. destruct (assoc "memory" cfgd); [discriminate |].
      injection Hflag as <-. reflexivity.
    - injection Hcd as <-. cbn in Hflag. injection Hflag as <-. reflexivity. }
  rewrite Hf. split; [reflexivity |].
  intros queries wq cs.
  apply (run_session_disabled rt a queries (mkState (Memory.init 10 false) wq cs)).
  reflexivity.
Qed.

(** Two queries to the agent built from the configuration without the
    flag. *)
Lemma agent_without_memory_flag_witness :
  memory (snd (run_session (Ref.math_rt None) (Ref.math_agent None)
                 [Ref.sum_query; "And 3 + 3?"]
                 (@mkState (Ref.math_rt None) (Memory.init 10 false) 0%nat [])))
  = Memory.init 10 false.
Proof.
  apply (agent_without_memory_flag (Ref.math_rt None) "agent_config.json" "openai"
           0%nat 0%nat (Ref.math_agent None) (Memory.init 10 false)).
  - reflexivity.
  - reflexivity.
Defined.

End TurnFacts.

(** ** More on the bounded memory *)

Module MemoryMore.

Import Memory.
Local Open Scope list_scope.
Local Open Scope Z_scope.

(** X1: an enabled memory of positive capacity that holds no more than
    its capacity returns, after any run of adds, the last [max_items] of
    what it held followed by what was added, in order; its flag and its
    capacity are as before. *)
Theorem memory_keeps_the_last_turns (l : list Memory.Message) (m : Memory.t) :
  Memory.enabled m = true ->
  1 <= Memory.max_items m ->
  (List.length (Memory.messages m) <= Z.to_nat (Memory.max_items m))%nat ->
  Memory.get_messages (Memory.add_all l m)
  = lastn (Z.to_nat (Memory.max_items m)) (Memory.messages m ++ l) /\
  Memory.max_items (Memory.add_all l m) = Memory.max_items m /\
  Memory.is_enabled (Memory.add_all l m) = true.
Proof.
  intros He Hn Hlen. rewrite (MemoryFacts.add_all_enabled l m He Hn Hlen).
  repeat split.
Qed.

(** Capacity 3, two turns stored, three added. *)
Lemma memory_keeps_the_last_turns_witness :
  Memory.get_messages
    (Memory.add_all
       [Memory.mkMessage "user" "c"; Memory.mkMessage "assistant" "d";
        Memory.mkMessage "user" "e"]
       (Memory.mk [Memory.mkMessage "user" "a"; Memory.mkMessage "assistant" "b"] 3 true))
  = [Memory.mkMessage "user" "c"; Memory.mkMessage "assistant" "d";
     Memory.mkMessage "user" "e"].
Proof.
  apply (memory_keeps_the_last_turns
           [Memory.mkMessage "user" "c"; Memory.mkMessage "assistant" "d";
            Memory.mkMessage "user" "e"]
           (Memory.mk [Memory.mkMessage "user" "a"; Memory.mkMessage "assistant" "b"] 3 true)).
  - reflexivity.
  - cbn. lia.
  - cbn. lia.
Defined.

(** X2: whatever is called on a memory of positive capacity (add, clear,
    set_enabled, in any order), its capacity stays the same and it never
    holds more turns than its capacity. *)
Theorem run_keeps_the_bound (ops : list Memory.op) :
  forall m : Memory.t,
    1 <= Memory.max_items m ->
    (List.length (Memory.messages m) <= Z.to_nat (Memory.max_items m))%nat ->
    Memory.max_items (Memory.run ops m) = Memory.max_items m /\
    (List.length (Memory.get_messages (Memory.run ops m))
     <= Z.to_nat (Memory.max_items m))%nat.
Proof.
  induction ops as [| o ops IH]; intros m Hn Hlen.
  - cbn. auto.
  - cbn [run fold_left]. fold (run ops (step o m)).
    assert (Hstep : max_items (step o m) = max_items m /\
                    (List.length (messages (step o m)) <= Z.to_nat (max_items m))%nat).
    { destruct o as [r c | | b]; cbn [step].
      - destruct (enabled m) eqn:He.
        + rewrite (MemoryFacts.add_enabled r c m He Hn). cbn [max_items messages].
          split; [reflexivity |]. rewrite lastn_length. lia.
        + rewrite (MemoryFacts.add_disabled r c m He). auto.
      - cbn. split; [reflexivity | lia].
      - cbn. auto. }
    destruct Hstep as [Hmax Hlen'].
    destruct (IH (step o m)) as [H1 H2].
    + rewrite Hmax. exact Hn.
    + rewrite Hmax. exact Hlen'.
    + rewrite Hmax in H1, H2. auto.
Qed.

Lemma run_keeps_the_bound_witness :
  (List.length
     (Memory.get_messages
        (Memory.run
           [Memory.Add "user" "a"; Memory.SetEnabled false; Memory.Add "user" "b";
            Memory.SetEnabled true; Memory.Add "user" "c"; Memory.Add "user" "d"]
           (Memory.init 2 true)))
   <= 2)%nat.
Proof.
  apply (run_keeps_the_bound
           [Memory.Add "user" "a"; Memory.SetEnabled false; Memory.Add "user" "b";
            Memory.SetEnabled true; Memory.Add "user" "c"; Memory.Add "user" "d"]
           (Memory.init 2 true)).
  - cbn. lia.
  - cbn. lia.
Defined.

(** X3: turns added while the memory is disabled are lost for good:
    disabling a memory, adding any turns and setting the flag again leaves
    the memory that setting the flag alone leaves. *)
Theorem adds_while_disabled_are_lost (l : list Memory.Message) (m : Memory.t) (b : bool) :
  Memory.set_enabled b (Memory.add_all l (Memory.set_enabled false m))
  = Memory.set_enabled b m.
Proof.
  assert (H : forall m', enabled m' = false -> add_all l m' = m').
  { induction l as [| x l IH]; intros m' He; [reflexivity |].
    cbn [add_all fold_left]. fold (add_all l (add (role x) (content x) m')).
    rewrite (MemoryFacts.add_disabled _ _ m' He). apply IH, He. }
  rewrite H by reflexivity. reflexivity.
Qed.

End MemoryMore.

(** ** More on extraction and the Anthropic mapping *)

Module ExtractMore.

Import TextFacts.

Local Arguments Ascii.eqb : simpl never.

Lemma has_char_app (c : ascii) (s t : string) :
  has_char c (s ++ t) = has_char c s || has_char c t.
Proof.
  induction s as [| a s IH]; cbn; [reflexivity |].
  rewrite IH, orb_assoc. reflexivity.
Qed.

Lemma all_space_no_backquote (ws : string) :
  all_space ws = true -> has_char backquote ws = false.
Proof.
  induction ws as [| a ws IH]; cbn; intros H; [reflexivity |].
  apply andb_prop in H. destruct H as [Ha Hws]. rewrite (IH Hws), orb_false_r.
  destruct (Ascii.eqb a backquote) eqn:E; [| reflexivity].
  apply Ascii.eqb_eq in E. subst a. discriminate.
Qed.

(** Without a backquote there is no fenced block to find. *)
Lemma search_fenced_no_backquote (s : string) :
  has_char backquote s = false -> search_fenced s = None.
Proof.
  induction s as [| c s IH]; intros H; [reflexivity |].
  cbn in H. apply orb_false_elim in H. destruct H as [Hc Hs].
  cbn [search_fenced]. rewrite (match_fenced_at_no_backquote c s Hc). apply IH, Hs.
Qed.

Lemma rstrip_all_space (ws : string) : all_space ws = true -> rstrip ws = EmptyString.
Proof.
  induction ws as [| a ws IH]; cbn; intros H; [reflexivity |].
  apply andb_prop in H. destruct H as [Ha Hws]. rewrite (IH Hws), Ha. reflexivity.
Qed.

Lemma rstrip_app_space (t ws : string) :
  all_space ws = true -> rstrip (t ++ ws) = rstrip t.
Proof.
  intros H. induction t as [| c t IH]; cbn.
  - apply rstrip_all_space, H.
  - rewrite IH. reflexivity.
Qed.

Lemma rstrip_ends_rbrace (t : string) : ends_with_char rbrace t = true -> rstrip t = t.
Proof.
  induction t as [| c t IH]; intros H; [discriminate |].
  destruct (ends_with_char_cons _ _ _ H) as [[-> ->] | [Hne H']].
  - reflexivity.
  - cbn [rstrip]. rewrite (IH H'). destruct t; [contradiction | reflexivity].
Qed.

(** [strip] removes exactly the whitespace around a text between braces. *)
Lemma strip_braced (ws1 body ws2 : string) :
  all_space ws1 = true -> all_space ws2 = true ->
  ends_with_char rbrace body = true ->
  strip (ws1 ++ String lbrace body ++ ws2) = String lbrace body.
Proof.
  intros H1 H2 Hend. unfold strip.
  rewrite lstrip_all_space by exact H1.
  change (lstrip (String lbrace body ++ ws2)) with (String lbrace body ++ ws2).
  rewrite rstrip_app_space by exact H2.
  apply rstrip_ends_rbrace. destruct body; [discriminate | exact Hend].
Qed.

(** X4: a reply that is just a JSON object between optional whitespace,
    with no backquote in it, is read as a whole: when [json.loads] makes an
    object with both keys of it, [extract_tool_call] returns that object. *)
Theorem extract_bare_object (rt : Runtime) (d : list (string * value))
    (tool parameters : value) (body ws1 ws2 : string) :
  json_loads rt (String lbrace body) = inr (VDict d) ->
  assoc "tool" d = Some tool ->
  assoc "parameters" d = Some parameters ->
  ends_with_char rbrace body = true ->
  has_char backquote body = false ->
  all_space ws1 = true ->
  all_space ws2 = true ->
  extract_tool_call rt (ws1 ++ String lbrace body ++ ws2) = Some (VDict d).
Proof.
  intros Hl Ht Hp Hend Hb H1 H2.
  assert (Hm : json_match (ws1 ++ String lbrace body ++ ws2) = Some (String lbrace body)).
  { unfold json_match. rewrite search_fenced_no_backquote.
    - rewrite strip_braced by assumption. cbn [match_bare].
      rewrite Ascii.eqb_refl, Hend. reflexivity.
    - rewrite !has_char_app, (all_space_no_backquote ws1 H1), (all_space_no_backquote ws2 H2).
      cbn. rewrite Hb. reflexivity. }
  rewrite (ExtractFacts.extract_tool_call_object rt _ _ _ Hm Hl), Ht, Hp. reflexivity.
Qed.

(** The reply of the calculator scenario, on a line of its own. *)
Lemma extract_bare_object_witness :
  extract_tool_call Ref.rt0 (nl ++ Ref.dumps Ref.sum_action ++ nl) = Some Ref.sum_action.
Proof.
  apply (extract_bare_object Ref.rt0
           [("tool", VStr "calculator"); ("parameters", VDict [("expression", VStr "2+2")])]
           (VStr "calculator") (VDict [("expression", VStr "2+2")])
           (quoted "tool" ++ ": " ++ quoted "calculator" ++ ", " ++ quoted "parameters"
            ++ ": {" ++ quoted "expression" ++ ": " ++ quoted "2+2" ++ "}}")
           nl nl); reflexivity.
Defined.

End ExtractMore.

Module ProviderMore.

Local Open Scope list_scope.

Lemma forallb_is_turn_app (l l' : list Memory.Message) :
  forallb is_turn (l ++ l') = forallb is_turn l && forallb is_turn l'.
Proof. apply forallb_app. Qed.

Lemma claude_loop_turns_only (messages : list Memory.Message) :
  forall (system_prompt : string) (acc : list Memory.Message),
    forallb is_turn acc = true ->
    forallb is_turn (snd (claude_loop messages system_prompt acc)) = true /\
    (List.length (snd (claude_loop messages system_prompt acc))
     <= List.length acc + List.length messages)%nat.
Proof.
  induction messages as [| msg rest IH]; intros system_prompt acc Hacc.
  - cbn. split; [exact Hacc | lia].
  - cbn [claude_loop List.length].
    assert (Hpush : forall r c, is_turn (Memory.mkMessage r c) = true ->
              forallb is_turn (snd (claude_loop rest system_prompt (acc ++ [Memory.mkMessage r c]))) = true /\
              (List.length (snd (claude_loop rest system_prompt (acc ++ [Memory.mkMessage r c])))
               <= List.length acc + S (List.length rest))%nat).
    { intros r c Hrc.
      destruct (IH system_prompt (acc ++ [Memory.mkMessage r c])) as [H1 H2].
      - rewrite forallb_app, Hacc. cbn. rewrite Hrc. reflexivity.
      - split; [exact H1 |]. rewrite length_app in H2. cbn in H2. lia. }
    destruct (String.eqb (Memory.role msg) "system").
    + destruct acc as [| x acc'].
      * destruct (IH (Memory.content msg) [] eq_refl) as [H1 H2]. split; [exact H1 | cbn in *; lia].
      * apply Hpush. reflexivity.
    + destruct (String.eqb (Memory.role msg) "user"); [apply Hpush; reflexivity |].
      destruct (String.eqb (Memory.role msg) "assistant"); [apply Hpush; reflexivity |].
      destruct (IH system_prompt acc Hacc) as [H1 H2]. split; [exact H1 | lia].
Qed.

(** X5: whatever list it is given, the Anthropic mapping sends only user
    and assistant messages, never a system-role one, and no more messages
    than it was given. *)
Theorem claude_request_sends_turns_only (messages : list Memory.Message) :
  forallb is_turn (snd (claude_request messages)) = true /\
  (List.length (snd (claude_request messages)) <= List.length messages)%nat.
Proof.
  unfold claude_request.
  destruct (claude_loop_turns_only messages EmptyString [] eq_refl) as [H1 H2].
  split; [exact H1 | exact H2].
Qed.

Lemma last_cons_default {A : Type} (l : list A) :
  forall x d d' : A, last (x :: l) d = last (x :: l) d'.
Proof.
  induction l as [| y l IH]; intros x d d'; [reflexivity |].
  change (last (y :: l) d = last (y :: l) d'). apply IH.
Qed.

Lemma claude_loop_leading_systems (contents : list string) :
  forall (more : list Memory.Message) (system_prompt : string),
    claude_loop (map (Memory.mkMessage "system") contents ++ more) system_prompt []
    = claude_loop more (last contents system_prompt) [].
Proof.
  induction contents as [| c cs IH]; intros more system_prompt; [reflexivity |].
  cbn [map app claude_loop Memory.role Memory.content].
  change (String.eqb "system" "system") with true. cbn iota.
  rewrite IH. destruct cs as [| s cs']; [reflexivity |].
  rewrite (last_cons_default cs' s c system_prompt). reflexivity.
Qed.

(** X6: of the system messages that come before the first user or
    assistant message, the last one alone becomes the system field; the
    ones before it reach the vendor nowhere. *)
Theorem claude_request_last_leading_system (contents : list string) (c : string)
    (rest : list Memory.Message) :
  opens_with_turn rest = true ->
  claude_request (map (Memory.mkMessage "system") (contents ++ [c]) ++ rest)
  = (c, flat_map spec_claude_message rest).
Proof.
  intros H. unfold claude_request. rewrite claude_loop_leading_systems.
  rewrite last_last. apply ProviderFacts.claude_loop_turn_first, H.
Qed.

Lemma claude_request_last_leading_system_witness :
  claude_request
    [Memory.mkMessage "system" "A"; Memory.mkMessage "system" "B";
     Memory.mkMessage "system" "C"; Memory.mkMessage "user" "hi"]
  = ("C", [Memory.mkMessage "user" "hi"]).
Proof.
  apply (claude_request_last_leading_system ["A"; "B"] "C" [Memory.mkMessage "user" "hi"]).
  reflexivity.
Defined.

Lemma spec_claude_message_turn (msg : Memory.Message) :
  is_turn msg = true -> spec_claude_message msg = [msg].
Proof.
  destruct msg as [r c]. unfold is_turn, spec_claude_message. cbn [Memory.role Memory.content].
  intros H. destruct (String.eqb r "system") eqn:Es.
  - apply String.eqb_eq in Es. subst r. discriminate.
  - destruct (String.eqb r "user") eqn:Eu.
    + apply String.eqb_eq in Eu. subst r. reflexivity.
    + cbn [orb] in H. rewrite H. apply String.eqb_eq in H. subst r. reflexivity.
Qed.

Lemma flat_map_turns (l : list Memory.Message) :
  forallb is_turn l = true -> flat_map spec_claude_message l = l.
Proof.
  induction l as [| msg l IH]; cbn; intros H; [reflexivity |].
  apply andb_prop in H. destruct H as [Hm Hl].
  rewrite (spec_claude_message_turn msg Hm), (IH Hl). reflexivity.
Qed.

(** X7: what the Anthropic backend is sent in the two calls of a turn,
    when the memory holds user and assistant turns only: the system prompt
    as the system field both times; the replayed turns and the query in the
    first call; in the second call the same, the serialized action, and the
    tool result as an assistant message marked as a system note. *)
Theorem claude_request_of_a_turn (rt : Runtime) (system_prompt query dumped : string)
    (m : Memory.t) (tool_result : value) :
  forallb is_turn (Memory.messages m) = true ->
  claude_request (first_messages system_prompt m query)
  = (system_prompt, replayed m ++ [Memory.mkMessage "user" query]) /\
  claude_request
    (first_messages system_prompt m query
     ++ [decision_message dumped; tool_result_message rt tool_result])
  = (system_prompt,
     replayed m
     ++ [Memory.mkMessage "user" query;
         Memory.mkMessage "assistant" dumped;
         Memory.mkMessage "assistant"
           ("System message: Tool result: " ++ py_str (repr rt) tool_result)%string]).
Proof.
  intros Hm.
  assert (Hr : forallb is_turn (replayed m) = true).
  { unfold replayed, Memory.is_enabled, Memory.get_messages.
    destruct (Memory.enabled m); [exact Hm | reflexivity]. }
  assert (Hfirst : first_messages system_prompt m query
                   = Memory.mkMessage "system" system_prompt
                     :: (replayed m ++ [Memory.mkMessage "user" query])).
  { unfold first_messages, replayed. destruct (Memory.is_enabled m); reflexivity. }
  assert (Hopen : forall tail, opens_with_turn
                    ((replayed m ++ [Memory.mkMessage "user" query]) ++ tail) = true).
  { intros tail. destruct (replayed m) as [| x l] eqn:E; [reflexivity |].
    cbn in Hr. apply andb_prop in Hr. destruct Hr as [Hx _]. exact Hx. }
  rewrite Hfirst. unfold claude_request. split.
  - cbn [claude_loop Memory.role Memory.content].
    change (String.eqb "system" "system") with true. cbn iota.
    rewrite ProviderFacts.claude_loop_turn_first.
    + rewrite flat_map_turns; [reflexivity |].
      rewrite forallb_app, Hr. reflexivity.
    + specialize (Hopen []). rewrite app_nil_r in Hopen. exact Hopen.
  - cbn [app claude_loop Memory.role Memory.content].
    change (String.eqb "system" "system") with true. cbn iota.
    rewrite ProviderFacts.claude_loop_turn_first by apply Hopen.
    rewrite !flat_map_app, flat_map_turns by exact Hr.
    rewrite <- app_assoc. reflexivity.
Qed.

Lemma claude_request_of_a_turn_witness :
  claude_request
    (first_messages "You are A."
       (Memory.mk [Memory.mkMessage "user" "q0"; Memory.mkMessage "assistant" "r0"] 10 true)
       "q1")
  = ("You are A.",
     [Memory.mkMessage "user" "q0"; Memory.mkMessage "assistant" "r0";
      Memory.mkMessage "user" "q1"]).
Proof.
  apply (claude_request_of_a_turn Ref.rt0 "You are A." "q1" "{}"
           (Memory.mk [Memory.mkMessage "user" "q0"; Memory.mkMessage "assistant" "r0"] 10 true)
           VNone).
  reflexivity.
Defined.


End ProviderMore.

(** ** More on dispatch and the default prompt *)

Module DispatchMore.

(** X11: a tool that cannot be loaded is reported and not run: when the
    import of its module raises an import or attribute error, or the module
    has no attribute of the function's name, the answer is the load-error
    text with the reason. *)
Theorem unloadable_tool_is_reported (rt : Runtime) (a : Agent rt)
    (tool_name parameters : value) (d : list (string * value))
    (path module_name function_name : string) (w : World rt) :
  hashable tool_name = true ->
  registry_find tool_name (tools a) = Some (VDict d) ->
  assoc "function" d = Some (VStr path) ->
  rsplit_dot path = Some (module_name, function_name) ->
  match import_module rt module_name w with
  | (inl e, w1) =>
      is_import_or_attribute_error e = true ->
      _execute_tool rt a tool_name parameters w
      = (inr (VStr ("Error loading tool function: " ++ exn_msg e)), w1)
  | (inr m, w1) =>
      m function_name = None ->
      _execute_tool rt a tool_name parameters w
      = (inr (VStr ("Error loading tool function: module '" ++ module_name
                    ++ "' has no attribute '" ++ function_name ++ "'")), w1)
  end.
Proof.
  intros Hh Hf Hp Hs.
  assert (Htruthy : truthy (VStr path) = true).
  { destruct path; [discriminate | reflexivity]. }
  unfold _execute_tool, registry_lookup, bind, lift. rewrite Hh, Hf.
  cbn [py_get]. rewrite Hp, Htruthy. cbn [negb split_function_path]. rewrite Hs.
  unfold try_except, bind. cbn [fst snd].
  destruct (import_module rt module_name w) as [[e | m] w1].
  - intros He. rewrite He. reflexivity.
  - intros Hm. unfold lift, getattr. rewrite Hm. reflexivity.
Qed.

(** A descriptor whose path names a function that its module lacks, and
    one whose module is not there. *)
Lemma unloadable_tool_is_reported_witness :
  _execute_tool Ref.rt0
    (Ref.agent0 (Ref.math_config None)
       [(VStr "root", Ref.tool_config "root" "Square root" "tools.calculator.sqrt")])
    (VStr "root") (VDict []) 0%nat
  = (inr (VStr "Error loading tool function: module 'tools.calculator' has no attribute 'sqrt'"),
     0%nat) /\
  _execute_tool Ref.rt0
    (Ref.agent0 (Ref.math_config None)
       [(VStr "search", Ref.tool_config "search" "Search" "tools.search.run")])
    (VStr "search") (VDict []) 0%nat
  = (inr (VStr "Error loading tool function: No module named 'tools.search'"), 0%nat).
Proof.
  split.
  - apply (unloadable_tool_is_reported Ref.rt0
             (Ref.agent0 (Ref.math_config None)
                [(VStr "root", Ref.tool_config "root" "Square root" "tools.calculator.sqrt")])
             (VStr "root") (VDict [])
             [("name", VStr "root");
              ("description", VStr "Square root");
              ("function", VStr "tools.calculator.sqrt");
              ("parameters", VDict [("type", VStr "object");
                                    ("properties", VDict []);
                                    ("required", VList [])]);
              ("keywords", VList [])]
             "tools.calculator.sqrt" "tools.calculator" "sqrt" 0%nat);
      reflexivity.
  - apply (unloadable_tool_is_reported Ref.rt0
             (Ref.agent0 (Ref.math_config None)
                [(VStr "search", Ref.tool_config "search" "Search" "tools.search.run")])
             (VStr "search") (VDict [])
             [("name", VStr "search");
              ("description", VStr "Search");
              ("function", VStr "tools.search.run");
              ("parameters", VDict [("type", VStr "object");
                                    ("properties", VDict []);
                                    ("required", VList [])]);
              ("keywords", VList [])]
             "tools.search.run" "tools.search" "run" 0%nat);
      reflexivity.
Defined.

Lemma _execute_tool_call_raises_witness :
  _execute_tool Ref.rt0 (Ref.agent0 (Ref.math_config None) Ref.faulty_tools)
    (VStr "divider") (VDict []) 0%nat
  = (inr (VStr "Error executing tool: division by zero"), 0%nat).
Proof.
  apply (DispatchFacts._execute_tool_call_raises Ref.rt0
           (Ref.agent0 (Ref.math_config None) Ref.faulty_tools)
           (VStr "divider") (VDict [])
           [("name", VStr "divider");
            ("description", VStr "Divide");
            ("function", VStr "tools.faulty.divides_by_zero");
            ("parameters", VDict [("type", VStr "object");
                                  ("properties", VDict []);
                                  ("required", VList [])]);
            ("keywords", VList [])]
           []
           "tools.faulty.divides_by_zero" "tools.faulty" "divides_by_zero"
           (fun f =>
              if String.eqb f "reads_none" then Some Ref.reads_none
              else if String.eqb f "divides_by_zero" then Some Ref.divides_by_zero
              else None)
           Ref.divides_by_zero
           (mkExn (OtherException "ZeroDivisionError") "division by zero")
           0%nat 0%nat 0%nat);
    try reflexivity.
  discriminate.
Defined.


End DispatchMore.

Module PromptMore.

Lemma tool_lines_roster (rt : Runtime) (tools : registry) :
  forall system_prompt : string,
    forallb (fun entry => is_object (snd entry)) tools = true ->
    tool_lines rt tools system_prompt = inr (system_prompt ++ tool_roster rt tools).
Proof.
  induction tools as [| [tool_name tool_config] rest IH]; intros system_prompt H.
  - cbn. f_equal. induction system_prompt as [| c p IHp]; cbn; [reflexivity |].
    f_equal. exact IHp.
  - cbn in H. apply andb_prop in H. destruct H as [Ho Hrest].
    destruct tool_config as [| | | | | d]; try discriminate.
    cbn [tool_lines py_get ebind]. rewrite IH by exact Hrest.
    cbn [tool_roster]. unfold tool_line. cbn [fst snd description_of].
    rewrite !TextFacts.append_assoc. reflexivity.
Qed.

(** X12: without a custom template, and when every registered descriptor is
    an object, the system prompt is the persona lines, one line per
    registered tool in the order of the registry (its name and its
    description, empty when it has none), the think hint when there is
    one, and the instruction block. *)
Theorem default_prompt_lists_every_tool (rt : Runtime) (a : Agent rt)
    (backstory task think : value) :
  config_field a "backstory" = inr backstory ->
  config_field a "task" = inr task ->
  config_field a "think" = inr think ->
  uses_template a = false ->
  forallb (fun entry => is_object (snd entry)) (tools a) = true ->
  _create_system_prompt rt a
  = inr (persona_header rt (name a) backstory task
         ++ tool_roster rt (tools a)
         ++ think_hint rt think
         ++ tool_instructions).
Proof.
  intros Hb Ht Hh Hu Ho.
  rewrite PromptFacts._create_system_prompt_unfold, Hb, Ht, Hh.
  destruct (PromptFacts.config_field_defined rt a _ "prompt_template" _ Hb) as [t Et].
  unfold uses_template in Hu. rewrite Et in Hu. rewrite Et, Hu.
  unfold default_prompt. fold (persona_header rt (name a) backstory task).
  rewrite (tool_lines_roster rt (tools a) _ Ho). cbn [ebind]. unfold think_hint.
  destruct (truthy think); cbn [ebind]; rewrite !TextFacts.append_assoc; reflexivity.
Qed.

Lemma default_prompt_lists_every_tool_witness :
  _create_system_prompt Ref.rt0 (Ref.agent0 (Ref.math_config None) Ref.faulty_tools)
  = inr ("You are MathAssistant. I am a helpful assistant with math skills." ++ nl
         ++ "Your task is to help users solve mathematical problems." ++ nl ++ nl
         ++ "You have access to the following tools:" ++ nl
         ++ "- reader: Read a value" ++ nl
         ++ "- divider: Divide" ++ nl
         ++ "- bare: A path with no dot" ++ nl
         ++ "- calculator: Evaluate a mathematical expression" ++ nl
         ++ tool_instructions).
Proof.
  apply (default_prompt_lists_every_tool Ref.rt0
           (Ref.agent0 (Ref.math_config None) Ref.faulty_tools)
           (VStr "I am a helpful assistant with math skills.")
           (VStr "help users solve mathematical problems")
           (VStr EmptyString)); reflexivity.
Defined.

End PromptMore.

(** ** Invariants of a session *)

Module TurnMore.

Section Preservation.

Variable rt : Runtime.
Variable a : Agent rt.
Variable I : Memory.t -> Prop.
Hypothesis I_add_user : forall (c : string) (m : Memory.t), I m -> I (Memory.add "user" c m).
Hypothesis I_add_assistant :
  forall (c : string) (m : Memory.t), I m -> I (Memory.add "assistant" c m).

Lemma preserves_ret {A : Type} (x : A) : preserves rt I (ret x).
Proof. intros s H. exact H. Qed.

Lemma preserves_lift {A : Type} (r : exn + A) : preserves rt I (lift r).
Proof. intros s H. exact H. Qed.

Lemma preserves_get_memory : preserves rt I get_memory.
Proof. intros s H. exact H. Qed.

Lemma preserves_add_user (c : string) : preserves rt I (memory_add "user" c).
Proof. intros s H. cbn. apply I_add_user, H. Qed.

Lemma preserves_add_assistant (c : string) : preserves rt I (memory_add "assistant" c).
Proof. intros s H. cbn. apply I_add_assistant, H. Qed.

Lemma preserves_in_world {A : Type} (m : ST (World rt) A) : preserves rt I (in_world m).
Proof. intros s H. unfold in_world. destruct (m (world s)). exact H. Qed.

Lemma preserves_llm_get_response (messages : list Memory.Message) (tools : option value) :
  preserves rt I (llm_get_response a messages tools).
Proof.
  intros s H. unfold llm_get_response, in_world. cbn [world memory].
  destruct (get_response (llm a) messages tools (world s)). exact H.
Qed.

Lemma preserves_bind {A B : Type} (m : ST (State rt) A) (k : A -> ST (State rt) B) :
  preserves rt I m -> (forall x, preserves rt I (k x)) -> preserves rt I (bind m k).
Proof.
  intros Hm Hk s H. unfold bind. specialize (Hm s H).
  destruct (m s) as [[e | x] s1]; cbn [snd] in *; [exact Hm |].
  apply Hk, Hm.
Qed.

Lemma preserves_try_except {A : Type} (m : ST (State rt) A) (h : exn -> ST (State rt) A) :
  preserves rt I m -> (forall e, preserves rt I (h e)) -> preserves rt I (try_except m h).
Proof.
  intros Hm Hh s H. unfold try_except. specialize (Hm s H).
  destruct (m s) as [[e | x] s1]; cbn [snd] in *; [| exact Hm].
  apply Hh, Hm.
Qed.

Lemma preserves_process_query (query : string) : preserves rt I (process_query rt a query).
Proof.
  unfold process_query, process_query_body, answer_with_tool, answer_plainly.
  apply preserves_try_except; [| intros; apply preserves_ret].
  repeat first
    [ apply preserves_ret | apply preserves_lift | apply preserves_get_memory
    | apply preserves_add_user | apply preserves_add_assistant
    | apply preserves_in_world | apply preserves_llm_get_response
    | apply preserves_bind; [| intros ?]
    | match goal with
      | |- preserves rt I (match ?x with _ => _ end) => destruct x
      | |- preserves rt I (if ?x then _ else _) => destruct x
      end ].
Qed.

Lemma preserves_run_session (queries : list string) :
  forall s : State rt, I (memory s) -> I (memory (snd (run_session rt a queries s))).
Proof.
  induction queries as [| q rest IH]; intros s H; [exact H |].
  cbn [run_session]. unfold run_agent.
  pose proof (preserves_process_query q s H) as Hq.
  destruct (process_query rt a q s) as [r s1]. cbn [snd] in Hq.
  specialize (IH s1 Hq).
  destruct (run_session rt a rest s1) as [rs s2]. exact IH.
Qed.

End Preservation.

(** X13: a session of queries touches the memory only by adding user and
    assistant turns: every property of the memory that [add] keeps for
    these two roles holds after the session if it held before. *)
Theorem session_keeps_what_add_keeps (rt : Runtime) (a : Agent rt)
    (I : Memory.t -> Prop) (queries : list string) (s : State rt) :
  (forall (c : string) (m : Memory.t), I m -> I (Memory.add "user" c m)) ->
  (forall (c : string) (m : Memory.t), I m -> I (Memory.add "assistant" c m)) ->
  I (memory s) ->
  I (memory (snd (run_session rt a queries s))).
Proof.
  intros Hu Ha H. apply (preserves_run_session rt a I Hu Ha queries s H).
Qed.

(** The capacity of the scenario's memory after two queries. *)
Lemma session_keeps_what_add_keeps_witness :
  Memory.max_items
    (memory (snd (run_session (Ref.math_rt (Some true)) (Ref.math_agent (Some true))
                    [Ref.sum_query; "And 3 + 3?"] (Ref.math_state (Some true) true))))
  = 10%Z.
Proof.
  apply (session_keeps_what_add_keeps (Ref.math_rt (Some true)) (Ref.math_agent (Some true))
           (fun m => Memory.max_items m = 10%Z)).
  - intros c m H. unfold Memory.add.
    destruct (negb (Memory.enabled m)); [exact H |].
    destruct (Z.gtb _ _); exact H.
  - intros c m H. unfold Memory.add.
    destruct (negb (Memory.enabled m)); [exact H |].
    destruct (Z.gtb _ _); exact H.
  - reflexivity.
Defined.

Lemma add_keeps_flag_and_capacity (r c : string) (m : Memory.t) :
  Memory.enabled (Memory.add r c m) = Memory.enabled m /\
  Memory.max_items (Memory.add r c m) = Memory.max_items m.
Proof.
  unfold Memory.add. destruct (Memory.enabled m) eqn:E; cbn [negb].
  - destruct (Z.gtb _ _); cbn; auto.
  - auto.
Qed.

(** X14: no session of queries changes the enabled flag or the capacity of
    the memory. *)
Theorem session_keeps_flag_and_capacity (rt : Runtime) (a : Agent rt)
    (queries : list string) (s : State rt) :
  Memory.is_enabled (memory (snd (run_session rt a queries s)))
  = Memory.is_enabled (memory s) /\
  Memory.max_items (memory (snd (run_session rt a queries s))) = Memory.max_items (memory s).
Proof.
  apply (preserves_run_session rt a
           (fun m => Memory.is_enabled m = Memory.is_enabled (memory s) /\
                     Memory.max_items m = Memory.max_items (memory s))).
  - intros c m [H1 H2]. unfold Memory.is_enabled in *.
    destruct (add_keeps_flag_and_capacity "user" c m) as [E1 E2]. rewrite E1, E2. auto.
  - intros c m [H1 H2]. unfold Memory.is_enabled in *.
    destruct (add_keeps_flag_and_capacity "assistant" c m) as [E1 E2]. rewrite E1, E2. auto.
  - auto.
Qed.

Lemma forallb_skipn {A : Type} (f : A -> bool) (n : nat) (l : list A) :
  forallb f l = true -> forallb f (skipn n l) = true.
Proof.
  revert l. induction n as [| n IH]; intros l H; [exact H |].
  destruct l as [| x l]; [reflexivity |]. cbn in *.
  apply andb_prop in H. apply IH, H.
Qed.

Lemma add_keeps_turns (r c : string) (m : Memory.t) :
  is_turn (Memory.mkMessage r c) = true ->
  forallb is_turn (Memory.messages m) = true ->
  forallb is_turn (Memory.messages (Memory.add r c m)) = true.
Proof.
  intros Hr H. unfold Memory.add. destruct (negb (Memory.enabled m)); [exact H |].
  assert (Happ : forallb is_turn (Memory.messages m ++ [Memory.mkMessage r c]) = true).
  { rewrite forallb_app, H. cbn. rewrite Hr. reflexivity. }
  destruct (Z.gtb _ _); cbn [Memory.messages]; [| exact Happ].
  unfold slice_from. apply forallb_skipn, Happ.
Qed.

(** X15: a memory that holds user and assistant turns only holds user and
    assistant turns only after any session of queries: the serialized
    actions, the tool results and the system prompts of the turns never
    enter it. *)
Theorem session_stores_turns_only (rt : Runtime) (a : Agent rt)
    (queries : list string) (s : State rt) :
  forallb is_turn (Memory.messages (memory s)) = true ->
  forallb is_turn (Memory.get_messages (memory (snd (run_session rt a queries s)))) = true.
Proof.
  intros H. unfold Memory.get_messages.
  apply (preserves_run_session rt a
           (fun m => forallb is_turn (Memory.messages m) = true)).
  - intros c m Hm. apply add_keeps_turns; [reflexivity | exact Hm].
  - intros c m Hm. apply add_keeps_turns; [reflexivity | exact Hm].
  - exact H.
Qed.

Lemma session_stores_turns_only_witness :
  forallb is_turn
    (Memory.get_messages
       (memory (snd (run_session (Ref.math_rt (Some true)) (Ref.math_agent (Some true))
                       [Ref.sum_query] (Ref.math_state (Some true) true)))))
  = true.
Proof.
  apply (session_stores_turns_only (Ref.math_rt (Some true)) (Ref.math_agent (Some true))
           [Ref.sum_query] (Ref.math_state (Some true) true)).
  reflexivity.
Defined.

(** X16: a memory of positive capacity that holds no more than its capacity
    never holds more after any session of queries. *)
Theorem session_keeps_the_bound (rt : Runtime) (a : Agent rt)
    (queries : list string) (s : State rt) :
  (1 <= Memory.max_items (memory s))%Z ->
  (List.length (Memory.messages (memory s)) <= Z.to_nat (Memory.max_items (memory s)))%nat ->
  (List.length (Memory.get_messages (memory (snd (run_session rt a queries s))))
   <= Z.to_nat (Memory.max_items (memory s)))%nat.
Proof.
  intros Hn Hlen.
  assert (Hadd : forall (r c : string) (m : Memory.t),
            Memory.max_items m = Memory.max_items (memory s) /\
            (List.length (Memory.messages m) <= Z.to_nat (Memory.max_items (memory s)))%nat ->
            Memory.max_items (Memory.add r c m) = Memory.max_items (memory s) /\
            (List.length (Memory.messages (Memory.add r c m))
             <= Z.to_nat (Memory.max_items (memory s)))%nat).
  { intros r c m [Hmax Hl]. destruct (Memory.enabled m) eqn:He.
    - rewrite MemoryFacts.add_enabled by (rewrite ?Hmax; assumption).
      cbn [Memory.max_items Memory.messages]. split; [exact Hmax |].
      rewrite lastn_length, Hmax. lia.
    - rewrite MemoryFacts.add_disabled by exact He. auto. }
  unfold Memory.get_messages.
  apply (preserves_run_session rt a
           (fun m => Memory.max_items m = Memory.max_items (memory s) /\
                     (List.length (Memory.messages m)
                      <= Z.to_nat (Memory.max_items (memory s)))%nat)).
  - intros c m. apply Hadd.
  - intros c m. apply Hadd.
  - auto.
Qed.

Lemma session_keeps_the_bound_witness :
  (List.length
     (Memory.get_messages
        (memory (snd (run_session (Ref.math_rt (Some true)) (Ref.math_agent (Some true))
                        [Ref.sum_query; "again"; "and again"]
                        (@mkState (Ref.math_rt (Some true)) (Memory.init 2 true) 0%nat [])))))
   <= 2)%nat.
Proof.
  apply (session_keeps_the_bound (Ref.math_rt (Some true)) (Ref.math_agent (Some true))
           [Ref.sum_query; "again"; "and again"]
           (@mkState (Ref.math_rt (Some true)) (Memory.init 2 true) 0%nat [])).
  - cbn. lia.
  - cbn. lia.
Defined.

End TurnMore.

(** ** The ways a turn ends *)

Module TurnCases.

(** X17: a turn whose system prompt cannot be built is answered with the
    error text and leaves the state as it was: nothing is recorded and no
    backend call is made. *)
Theorem turn_fails_before_recording (rt : Runtime) (a : Agent rt) (query : string)
    (s : State rt) (e : exn) :
  _create_system_prompt rt a = inl e ->
  process_query rt a query s = (inr ("Error processing query: " ++ exn_msg e), s).
Proof.
  intros H. unfold process_query, try_except, process_query_body, bind, lift, ret.
  rewrite H. reflexivity.
Qed.

Lemma turn_fails_before_recording_witness :
  fst (process_query Ref.rt0 (Ref.agent0 Ref.broken_config []) "hi" (Ref.state0 true))
  = inr "Error processing query: 'list' object has no attribute 'get'".
Proof.
  rewrite (turn_fails_before_recording Ref.rt0 (Ref.agent0 Ref.broken_config []) "hi"
             (Ref.state0 true) (no_attribute (VList []) "get")); reflexivity.
Defined.

(** X18: when the first backend call raises, the turn is answered with the
    error text, and the query stays recorded in the memory with no answer
    after it. *)
Theorem turn_fails_after_recording (rt : Runtime) (a : Agent rt) (query : string)
    (s : State rt) (system_prompt : string) (formatted : value) (e : exn) (w1 : World rt) :
  let messages := first_messages system_prompt (memory s) query in
  _create_system_prompt rt a = inr system_prompt ->
  _format_tools_for_llm rt a = inr formatted ->
  get_response (llm a) messages (Some formatted) (world s) = (inl e, w1) ->
  process_query rt a query s
  = (inr ("Error processing query: " ++ exn_msg e),
     mkState (Memory.add "user" query (memory s)) w1
       (calls s ++ [mkCall messages (Some formatted)])%list).
Proof.
  intros messages Hp Hf H1.
  unfold process_query, try_except, process_query_body, bind, lift, get_memory, memory_add, ret.
  rewrite Hp, Hf. fold messages.
  unfold llm_get_response, in_world. cbn [world memory calls].
  rewrite H1. reflexivity.
Qed.

Lemma turn_fails_after_recording_witness :
  let r := process_query Ref.rt0 RefMore.offline_agent "hi" (Ref.state0 true) in
  fst r = inr "Error processing query: backend unreachable" /\
  Memory.get_messages (memory (snd r)) = [Memory.mkMessage "user" "hi"].
Proof.
  cbv zeta.
  rewrite (turn_fails_after_recording Ref.rt0 RefMore.offline_agent "hi" (Ref.state0 true)
             (match _create_system_prompt Ref.rt0 RefMore.offline_agent with
              | inr p => p
              | inl _ => EmptyString
              end)
             (VList [])
             (mkExn (OtherException "ConnectionError") "backend unreachable") 0%nat);
    try reflexivity.
  split; reflexivity.
Defined.

(** X19: a turn in which extraction yields none makes one backend call,
    answers with its reply as it is, and gives the memory two adds, the
    query and the reply. *)
Theorem plain_turn (rt : Runtime) (a : Agent rt) (query : string) (s : State rt)
    (system_prompt : string) (formatted : value) (tool_response : string) (w1 : World rt) :
  let messages := first_messages system_prompt (memory s) query in
  let s' := snd (process_query rt a query s) in
  _create_system_prompt rt a = inr system_prompt ->
  _format_tools_for_llm rt a = inr formatted ->
  get_response (llm a) messages (Some formatted) (world s) = (inr tool_response, w1) ->
  extract_tool_call rt tool_response = None ->
  fst (process_query rt a query s) = inr tool_response /\
  calls s' = (calls s ++ [mkCall messages (Some formatted)])%list /\
  world s' = w1 /\
  memory s' = Memory.add "assistant" tool_response (Memory.add "user" query (memory s)).
Proof.
  intros messages s' Hp Hf H1 Hx. subst s'.
  rewrite (TurnFacts.process_query_plain rt a query s system_prompt formatted
             tool_response w1 Hp Hf H1 Hx).
  cbn [fst snd calls world memory]. auto.
Qed.

Lemma plain_turn_witness :
  let r := process_query RefMore.plain_rt RefMore.plain_agent "hi"
             (@mkState RefMore.plain_rt (Memory.init 10 true) 0%nat []) in
  fst r = inr "Hello, how can I help?" /\
  List.length (calls (snd r)) = 1%nat /\
  Memory.get_messages (memory (snd r))
  = [Memory.mkMessage "user" "hi"; Memory.mkMessage "assistant" "Hello, how can I help?"].
Proof.
  cbv zeta.
  destruct (plain_turn RefMore.plain_rt RefMore.plain_agent "hi"
              (@mkState RefMore.plain_rt (Memory.init 10 true) 0%nat [])
              (match _create_system_prompt RefMore.plain_rt RefMore.plain_agent with
               | inr p => p
               | inl _ => EmptyString
               end)
              (match _format_tools_for_llm RefMore.plain_rt RefMore.plain_agent with
               | inr f => f
               | inl _ => VNone
               end)
              "Hello, how can I help?" 1%nat)
    as (Hanswer & Hcalls & _ & Hmem); try reflexivity.
  rewrite Hanswer, Hcalls, Hmem. repeat split.
Defined.

Lemma extract_unmatched (rt : Runtime) (response : string) :
  json_match response = None -> extract_tool_call rt response = None.
Proof.
  intros H. unfold extract_tool_call, extract_tool_call_body. rewrite H. reflexivity.
Qed.

(** X20: with the credential of its provider missing, a turn is answered
    with the provider's error text; the outside world is left as it was (the
    vendor is not called), and the text is recorded as the assistant's turn
    after the query. *)
Theorem turn_without_credential (rt : Runtime) (a : Agent rt) (query : string)
    (s : State rt) (system_prompt : string) (formatted : value) :
  (llm a = OpenAIProvider rt /\ key_missing (environ rt "OPENAI_API_KEY") = true) \/
  (llm a = AnthropicProvider rt /\ key_missing (environ rt "ANTHROPIC_API_KEY") = true) ->
  _create_system_prompt rt a = inr system_prompt ->
  _format_tools_for_llm rt a = inr formatted ->
  exists text : string,
    starts_with "Error: " text = true /\
    process_query rt a query s
    = (inr text,
       mkState (Memory.add "assistant" text (Memory.add "user" query (memory s)))
         (world s)
         (calls s ++ [mkCall (first_messages system_prompt (memory s) query)
                        (Some formatted)])%list).
Proof.
  intros [[Hl Hk] | [Hl Hk]] Hp Hf.
  - exists openai_no_key. split; [reflexivity |].
    apply (TurnFacts.process_query_plain rt a query s system_prompt formatted
             openai_no_key (world s) Hp Hf).
    + rewrite Hl. cbn [get_response OpenAIProvider]. unfold openai_get_response.
      rewrite Hk. reflexivity.
    + apply extract_unmatched. vm_compute. reflexivity.
  - exists anthropic_no_key. split; [reflexivity |].
    apply (TurnFacts.process_query_plain rt a query s system_prompt formatted
             anthropic_no_key (world s) Hp Hf).
    + rewrite Hl. cbn [get_response AnthropicProvider]. unfold anthropic_get_response.
      rewrite Hk. reflexivity.
    + apply extract_unmatched. vm_compute. reflexivity.
Qed.

Lemma turn_without_credential_witness :
  exists text : string,
    starts_with "Error: " text = true /\
    fst (process_query RefMore.no_key_rt RefMore.no_key_agent Ref.sum_query
           (@mkState RefMore.no_key_rt (Memory.init 10 true) 0%nat []))
    = inr text.
Proof.
  destruct (turn_without_credential RefMore.no_key_rt RefMore.no_key_agent Ref.sum_query
              (@mkState RefMore.no_key_rt (Memory.init 10 true) 0%nat [])
              (match _create_system_prompt RefMore.no_key_rt RefMore.no_key_agent with
               | inr p => p
               | inl _ => EmptyString
               end)
              (match _format_tools_for_llm RefMore.no_key_rt RefMore.no_key_agent with
               | inr f => f
               | inl _ => VNone
               end))
    as (text & Hstart & Hturn).
  - left. split; reflexivity.
  - reflexivity.
  - reflexivity.
  - exists text. split; [exact Hstart |]. rewrite Hturn. reflexivity.
Defined.

(** X21: a reply whose tool entry cannot be hashed (a list, an object)
    ends the turn at the dispatch: the answer is the error text, the query
    is recorded alone, and no second backend call is made. *)
Theorem turn_with_unhashable_tool (rt : Runtime) (a : Agent rt) (query : string)
    (s : State rt) (system_prompt : string) (formatted : value) (tool_response : string)
    (w1 : World rt) (d : list (string * value)) (tool_name : value) :
  let messages := first_messages system_prompt (memory s) query in
  _create_system_prompt rt a = inr system_prompt ->
  _format_tools_for_llm rt a = inr formatted ->
  get_response (llm a) messages (Some formatted) (world s) = (inr tool_response, w1) ->
  extract_tool_call rt tool_response = Some (VDict d) ->
  assoc "tool" d = Some tool_name ->
  hashable tool_name = false ->
  process_query rt a query s
  = (inr ("Error processing query: unhashable type: '" ++ type_name tool_name ++ "'"),
     mkState (Memory.add "user" query (memory s)) w1
       (calls s ++ [mkCall messages (Some formatted)])%list).
Proof.
  intros messages Hp Hf H1 Hx Ht Hh.
  unfold process_query, try_except, process_query_body, bind, lift, get_memory, memory_add.
  rewrite Hp, Hf. fold messages.
  unfold llm_get_response at 1. unfold in_world at 1. cbn [world memory calls].
  rewrite H1, Hx.
  assert (Htruthy : truthy (VDict d) = true).
  { destruct d; [discriminate | reflexivity]. }
  rewrite Htruthy.
  unfold answer_with_tool, bind, lift, ret.
  cbn [py_get]. rewrite Ht.
  unfold in_world. cbn [world memory calls].
  unfold _execute_tool, registry_lookup, bind, lift. rewrite Hh. reflexivity.
Qed.

Lemma turn_with_unhashable_tool_witness :
  let r := process_query RefMore.list_tool_rt RefMore.list_tool_agent "hi"
             (@mkState RefMore.list_tool_rt (Memory.init 10 true) 0%nat []) in
  fst r = inr "Error processing query: unhashable type: 'list'" /\
  List.length (calls (snd r)) = 1%nat /\
  Memory.get_messages (memory (snd r)) = [Memory.mkMessage "user" "hi"].
Proof.
  cbv zeta.
  rewrite (turn_with_unhashable_tool RefMore.list_tool_rt RefMore.list_tool_agent "hi"
             (@mkState RefMore.list_tool_rt (Memory.init 10 true) 0%nat [])
             (match _create_system_prompt RefMore.list_tool_rt RefMore.list_tool_agent with
              | inr p => p
              | inl _ => EmptyString
              end)
             (match _format_tools_for_llm RefMore.list_tool_rt RefMore.list_tool_agent with
              | inr f => f
              | inl _ => VNone
              end)
             (Ref.dumps RefMore.list_tool_action) 1%nat
             [("tool", VList [VStr "calculator"]); ("parameters", VDict [])]
             (VList [VStr "calculator"]));
    try reflexivity.
  repeat split.
Defined.

(** X22: a turn makes no backend call, one, or two, and never more: the
    first with the message list of the turn and the formatted tools, the
    second with no tools and the same list followed by an assistant and a
    system message. *)
Theorem turn_makes_at_most_two_calls (rt : Runtime) (a : Agent rt) (query : string)
    (s : State rt) :
  let s' := snd (process_query rt a query s) in
  calls s' = calls s \/
  exists (system_prompt : string) (formatted : value),
    _create_system_prompt rt a = inr system_prompt /\
    let first := mkCall (first_messages system_prompt (memory s) query) (Some formatted) in
    calls s' = (calls s ++ [first])%list \/
    exists x y : Memory.Message,
      Memory.role x = "assistant" /\ Memory.role y = "system" /\
      calls s' = (calls s ++ [first; mkCall (call_messages first ++ [x; y]) None])%list.
Proof.
  cbv zeta. remember (snd (process_query rt a query s)) as s' eqn:E. revert E.
  unfold process_query, try_except, process_query_body, bind, lift, get_memory, memory_add.
  destruct (_create_system_prompt rt a) as [e | system_prompt];
    [intros ->; left; reflexivity |].
  destruct (_format_tools_for_llm rt a) as [e | formatted];
    [intros ->; left; reflexivity |].
  intros E. right. exists system_prompt, formatted. split; [reflexivity |]. revert E.
  unfold llm_get_response at 1. unfold in_world at 1. cbn [world memory calls].
  destruct (get_response (llm a) (first_messages system_prompt (memory s) query)
              (Some formatted) (world s)) as [[e | tool_response] w1];
    [intros ->; left; reflexivity |].
  destruct (extract_tool_call rt tool_response) as [tool_call |];
    [| intros ->; left; reflexivity].
  destruct (truthy tool_call); [| intros ->; left; reflexivity].
  unfold answer_with_tool, bind, lift, ret, memory_add.
  destruct (py_get tool_call "tool" VNone) as [e | tool_name];
    [intros ->; left; reflexivity |].
  destruct (py_get tool_call "parameters" (VDict [])) as [e | parameters];
    [intros ->; left; reflexivity |].
  unfold in_world at 1. cbn [world memory calls].
  destruct (_execute_tool rt a tool_name parameters w1) as [[e | tool_result] w2];
    [intros ->; left; reflexivity |].
  destruct (json_dumps rt tool_call) as [e | dumped]; [intros ->; left; reflexivity |].
  unfold llm_get_response, in_world. cbn [world memory calls].
  match goal with
  | |- context [get_response (llm a) ?m None w2] =>
      destruct (get_response (llm a) m None w2) as [[e | final_response] w3]
  end;
    intros ->; right;
    exists (decision_message dumped), (tool_result_message rt tool_result);
    (split; [reflexivity |]); (split; [reflexivity |]);
    cbn [snd calls call_messages]; rewrite <- !app_assoc; reflexivity.
Qed.

End TurnCases.

(** ** Construction of an agent *)

Module ConstructionFacts.

Local Open Scope list_scope.

Lemma registry_put_keys (k v : value) (d : registry) :
  forall k', In k' (registry_keys (registry_put k v d)) -> In k' (registry_keys d) \/ k' = k.
Proof.
  induction d as [| [k0 v0] d IH]; intros k' H; cbn [registry_put] in H.
  - cbn in H. destruct H as [<- | []]. right. reflexivity.
  - destruct (key_eq k k0); cbn [registry_keys map fst In] in *.
    + left. exact H.
    + destruct H as [H | H]; [left; left; exact H |].
      destruct (IH k' H) as [H' | H']; [left; right; exact H' | right; exact H'].
Qed.

Lemma load_tools_loop_keys (rt : Runtime) (names : list value) :
  forall (tools : registry) (w : World rt) (tools' : registry) (w' : World rt),
    load_tools_loop rt names tools w = (inr tools', w') ->
    forall k, In k (registry_keys tools') ->
              In k (registry_keys tools) \/ (In k names /\ hashable k = true).
Proof.
  induction names as [| n names IH]; intros tools w tools' w' H k Hk.
  - cbn in H. injection H as <- <-. left. exact Hk.
  - cbn [load_tools_loop] in H. unfold bind in H.
    destruct (read_file rt _ w) as [[e | [text |]] w1]; [discriminate | |].
    + unfold lift in H. destruct (json_loads rt text) as [e | tool_config]; [discriminate |].
      unfold registry_set in H. destruct (hashable n) eqn:Hh; [| discriminate].
      destruct (IH _ _ _ _ H k Hk) as [H1 | [H1 H2]].
      * destruct (registry_put_keys _ _ _ _ H1) as [H3 | ->];
          [left; exact H3 | right; split; [left; reflexivity | exact Hh]].
      * right. split; [right; exact H1 | exact H2].
    + destruct (IH _ _ _ _ H k Hk) as [H1 | [H1 H2]];
        [left; exact H1 | right; split; [right; exact H1 | exact H2]].
Qed.

(** X23: the registry that [_load_tools] builds holds listed names only:
    every key is one of the entries that the [tools] value of the
    configuration iterates over, and can be hashed. *)
Theorem loaded_tools_are_listed (rt : Runtime) (tool_names : value) (w : World rt)
    (tools : registry) (w' : World rt) :
  _load_tools rt tool_names w = (inr tools, w') ->
  exists names : list value,
    iterate tool_names = inr names /\
    forall k, In k (registry_keys tools) -> In k names /\ hashable k = true.
Proof.
  unfold _load_tools, bind, lift. destruct (iterate tool_names) as [e | names]; [discriminate |].
  intros H. exists names. split; [reflexivity |]. intros k Hk.
  destruct (load_tools_loop_keys rt names [] w tools w' H k Hk) as [[] | H1]. exact H1.
Qed.

Lemma loaded_tools_are_listed_witness :
  exists names : list value,
    iterate (VList [VStr "calculator"; VStr "search"]) = inr names /\
    forall k, In k (registry_keys [(VStr "calculator", Ref.calculator_config)]) ->
              In k names /\ hashable k = true.
Proof.
  apply (loaded_tools_are_listed (Ref.math_rt (Some true))
           (VList [VStr "calculator"; VStr "search"]) 0%nat
           [(VStr "calculator", Ref.calculator_config)] 0%nat).
  vm_compute. reflexivity.
Defined.

(** X24: names with no descriptor file are passed over without an error:
    when none of the listed names has a file [tools/<name>.json], the agent
    is built with no tools. *)
Theorem tools_without_descriptor_are_skipped (rt : Runtime) (tool_names : value)
    (names : list value) (w : World rt) :
  iterate tool_names = inr names ->
  (forall (n : value) (w' : World rt),
      In n names ->
      read_file rt ("tools/" ++ py_str (repr rt) n ++ ".json") w' = (inr None, w')) ->
  _load_tools rt tool_names w = (inr [], w).
Proof.
  intros Hi Hr. unfold _load_tools, bind, lift. rewrite Hi. clear Hi.
  generalize (@nil (value * value)) as tools. revert Hr.
  induction names as [| n names IH]; intros Hr tools; [reflexivity |].
  cbn [load_tools_loop]. unfold bind. rewrite (Hr n w (or_introl eq_refl)).
  apply IH. intros n' w' Hn. apply Hr. right. exact Hn.
Qed.

(** The [tools] entry written as a string: its characters are the names. *)
Lemma tools_without_descriptor_are_skipped_witness :
  _load_tools (Ref.math_rt (Some true)) (VStr "calculator") 0%nat = (inr [], 0%nat).
Proof.
  apply (tools_without_descriptor_are_skipped (Ref.math_rt (Some true)) (VStr "calculator")
           (map (fun c => VStr (String c EmptyString)) (list_ascii_of_string "calculator"))).
  - reflexivity.
  - intros n w' Hn. cbn in Hn.
    repeat (destruct Hn as [<- | Hn]; [reflexivity |]). destruct Hn.
Defined.

(** X25: an agent is built from a configuration file that was read and
    parsed only: the agent carries the parsed value, its name is the
    [agent_name] entry ([Assistant] without one), its provider is the one
    [get_llm_provider] chose, and its memory starts empty with capacity 10. *)
Theorem created_agent_carries_its_config (rt : Runtime) (config_path llm_provider : string)
    (w : World rt) (a : Agent rt) (m : Memory.t) (w' : World rt) :
  create_agent rt config_path llm_provider w = (inr (a, m), w') ->
  (exists (text : string) (w1 : World rt),
      read_file rt config_path w = (inr (Some text), w1) /\
      json_loads rt text = inr (config a)) /\
  py_get (config a) "agent_name" (VStr "Assistant") = inr (name a) /\
  get_llm_provider rt llm_provider = inr (llm a) /\
  llm_provider_name a = llm_provider /\
  Memory.get_messages m = [] /\ Memory.max_items m = 10%Z.
Proof.
  unfold create_agent, Agent_init, _load_config, bind, lift.
  destruct (read_file rt config_path w) as [[e | [text |]] w1]; [discriminate | | discriminate].
  destruct (json_loads rt text) as [e | cfg] eqn:Hl.
  { destruct (exn_kind e); discriminate. }
  unfold ret at 1.
  destruct (py_get cfg "agent_name" (VStr "Assistant")) as [e | nm] eqn:Hn; [discriminate |].
  destruct (py_get cfg "config" (VDict [])) as [e | cd]; [discriminate |].
  destruct (py_get cd "tools" (VList [])) as [e | tn]; [discriminate |].
  destruct (_load_tools rt tn w1) as [[e | tl] w2]; [discriminate |].
  destruct (py_get cd "memory" (VBool false)) as [e | flag]; [discriminate |].
  destruct (get_llm_provider rt llm_provider) as [e | p]; [discriminate |].
  unfold ret. intros H. injection H as <- <- <-. cbn.
  split; [exists text, w1; split; [reflexivity | exact Hl] |].
  repeat split. exact Hn.
Qed.

Lemma created_agent_carries_its_config_witness :
  py_get (config (Ref.math_agent (Some true))) "agent_name" (VStr "Assistant")
  = inr (name (Ref.math_agent (Some true))).
Proof.
  apply (created_agent_carries_its_config (Ref.math_rt (Some true)) "agent_config.json"
           "openai" 0%nat (Ref.math_agent (Some true)) (Memory.init 10 true) 0%nat).
  reflexivity.
Defined.

(** X26: no agent is built from a configuration that cannot be read: a
    missing file raises [FileNotFoundError] with the path in its text,
    text that is not JSON raises [ValueError] with the decoder's message,
    and a JSON value that is not an object raises [AttributeError]. *)
Theorem create_agent_config_errors (rt : Runtime) (config_path llm_provider : string)
    (w : World rt) (f : option string) (w1 : World rt) :
  read_file rt config_path w = (inr f, w1) ->
  match f with
  | None =>
      create_agent rt config_path llm_provider w
      = (inl (mkExn FileNotFoundError ("Config file not found: " ++ config_path)), w1)
  | Some text =>
      match json_loads rt text with
      | inl e =>
          exn_kind e = JSONDecodeError ->
          create_agent rt config_path llm_provider w
          = (inl (mkExn ValueError ("Invalid JSON in config file: " ++ exn_msg e)), w1)
      | inr v =>
          is_object v = false ->
          create_agent rt config_path llm_provider w
          = (inl (mkExn AttributeError
                    ("'" ++ type_name v ++ "' object has no attribute 'get'")), w1)
      end
  end.
Proof.
  intros Hr. unfold create_agent, Agent_init, _load_config, bind. rewrite Hr.
  destruct f as [text |]; [| reflexivity].
  destruct (json_loads rt text) as [e | v].
  - intros ->. reflexivity.
  - intros Hv. destruct v; try discriminate; reflexivity.
Qed.

Lemma create_agent_config_errors_witness :
  create_agent Ref.rt0 "agent_config.json" "openai" 0%nat
  = (inl (mkExn FileNotFoundError "Config file not found: agent_config.json"), 0%nat).
Proof.
  apply (create_agent_config_errors Ref.rt0 "agent_config.json" "openai" 0%nat None 0%nat).
  reflexivity.
Defined.

End ConstructionFacts.

(** ** The tool files of tool.py *)

Module ToolFiles.

Local Open Scope list_scope.

Lemma assoc_write_file (path text : string) (d : disk) :
  assoc path (write_file path text d) = Some text.
Proof. unfold write_file. cbn [assoc]. rewrite String.eqb_refl. reflexivity. Qed.

(** X27: a descriptor that [create_tool_config] wrote is the one that
    [_load_tools] registers under the tool's name, when the interpreter
    reads the written files and [json.loads] reads the rendering back. *)
Theorem created_tool_is_loaded (rt : Runtime) (dump : value -> string)
    (tool_name description function_path : string) (parameters : list (string * value))
    (required_params keywords : option (list string)) (d : disk) (w : World rt) :
  let descriptor :=
    tool_descriptor tool_name description function_path parameters required_params
      keywords in
  reads_disk rt
    (create_tool_config dump tool_name description function_path parameters
       required_params keywords d) ->
  json_loads rt (dump descriptor) = inr descriptor ->
  _load_tools rt (VList [VStr tool_name]) w = (inr [(VStr tool_name, descriptor)], w).
Proof.
  intros descriptor Hd Hl.
  unfold _load_tools, bind, lift. cbn [iterate load_tools_loop py_str]. unfold bind.
  rewrite Hd. unfold create_tool_config. rewrite assoc_write_file.
  fold descriptor. unfold lift. rewrite Hl. reflexivity.
Qed.

Lemma created_tool_is_loaded_witness :
  _load_tools
    (Ref.runtime
       (create_tool_config Ref.dumps "search" "Search the web" "tools.search.run"
          [("query", VDict [("type", VStr "string")])] (Some ["query"]) None [])
       Ref.env [])
    (VList [VStr "search"]) 0%nat
  = (inr [(VStr "search",
           tool_descriptor "search" "Search the web" "tools.search.run"
             [("query", VDict [("type", VStr "string")])] (Some ["query"]) None)],
     0%nat).
Proof.
  apply (created_tool_is_loaded
           (Ref.runtime
              (create_tool_config Ref.dumps "search" "Search the web" "tools.search.run"
                 [("query", VDict [("type", VStr "string")])] (Some ["query"]) None [])
              Ref.env [])
           Ref.dumps "search" "Search the web" "tools.search.run"
           [("query", VDict [("type", VStr "string")])] (Some ["query"]) None [] 0%nat).
  - intros path w. reflexivity.
  - vm_compute. reflexivity.
Defined.

(** X28: the first run: with no [agent_config.json] on disk, the setup of
    [main] followed by [create_agent] builds the agent [MathAssistant],
    with the calculator registered and its memory enabled, for whichever
    provider was chosen. *)
Theorem first_run_builds_the_math_assistant (rt : Runtime) (dump : value -> string)
    (d : disk) (llm_provider : string) (p : LLMProvider (World rt)) (w : World rt) :
  assoc "agent_config.json" d = None ->
  reads_disk rt (ensure_config dump d) ->
  json_loads rt (dump basic_agent_config) = inr basic_agent_config ->
  json_loads rt (dump calculator_descriptor) = inr calculator_descriptor ->
  get_llm_provider rt llm_provider = inr p ->
  create_agent rt "agent_config.json" llm_provider w
  = (inr (mkAgent rt basic_agent_config (VStr "MathAssistant")
            [(VStr "calculator", calculator_descriptor)] p llm_provider,
          Memory.init 10 true), w).
Proof.
  intros Hnone Hd Hc Ht Hp.
  unfold ensure_config in Hd. rewrite Hnone in Hd.
  unfold create_agent, Agent_init, _load_config, bind.
  rewrite (Hd "agent_config.json" w).
  unfold setup_basic_config at 1. rewrite assoc_write_file. rewrite Hc.
  unfold ret at 1. unfold lift at 1 2 3. cbn [py_get basic_agent_config assoc String.eqb Ascii.eqb Bool.eqb].
  unfold _load_tools, bind, lift. cbn [iterate load_tools_loop py_str append]. unfold bind.
  rewrite (Hd "tools/calculator.json" w).
  replace (assoc "tools/calculator.json" (setup_basic_config dump d))
    with (Some (dump calculator_descriptor)) by reflexivity.
  unfold lift. rewrite Ht. cbn [registry_set hashable registry_put load_tools_loop].
  unfold ret at 1. rewrite Hp. reflexivity.
Qed.

Lemma first_run_builds_the_math_assistant_witness :
  fst (create_agent RefMore.fresh_rt "agent_config.json" "openai" 0%nat)
  = inr (mkAgent RefMore.fresh_rt basic_agent_config (VStr "MathAssistant")
           [(VStr "calculator", calculator_descriptor)] (OpenAIProvider RefMore.fresh_rt)
           "openai",
         Memory.init 10 true).
Proof.
  rewrite (first_run_builds_the_math_assistant RefMore.fresh_rt Ref.dumps [] "openai"
             (OpenAIProvider RefMore.fresh_rt) 0%nat).
  - reflexivity.
  - reflexivity.
  - intros path w. reflexivity.
  - vm_compute. reflexivity.
  - vm_compute. reflexivity.
  - reflexivity.
Defined.

End ToolFiles.
